(** * grub_file.c: the binding between the GRUB filesystem engine and the
      standalone EFI file-system driver

    A shallow embedding of [src/grub_file.c].  The block-read shim, the
    device and file lifecycle, the accessors, the five bridged engine calls
    and the probe are definitions of the same names in a state monad with a
    fault outcome; the properties of the read path, of the error-clear
    protocol, of the probe, of the allocation roll-back and of the
    block-read shim are stated and proved below the definitions. *)

From Stdlib Require Import ZArith Lia List String.
From stdpp Require Import base option gmap strings.

Local Open Scope Z_scope.

(** ** Machine integers

    [grub_off_t], [grub_disk_addr_t] and [UINT64] are unsigned 64-bit
    integers.  [UINTN], [INTN], [grub_size_t] and [grub_ssize_t] have the
    width of a machine word; the headers that fix it are not part of the
    file, so the width is the parameter [nbits] of every definition that
    depends on it (64 for the X64 build, 32 for IA32).  A conversion to an
    unsigned type reduces modulo 2^w; a conversion to a signed type keeps the
    bit pattern. *)

Definition to_unsigned (w x : Z) : Z := x mod 2 ^ w.

Definition to_signed (w x : Z) : Z :=
  let u := x mod 2 ^ w in
  if u <? 2 ^ (w - 1) then u else u - 2 ^ w.

Definition to_UINT64 (x : Z) : Z := to_unsigned 64 x.

(** Pointers are addresses; [NULL] is address 0. *)
Abbreviation NULL := 0 (only parsing).

(** ** Data model *)

(** [struct grub_file]: the FileSession. *)
Record grub_file := mk_grub_file {
  file_device : Z;      (* grub_device_t device *)
  file_fs     : Z;      (* grub_fs_t fs *)
  file_offset : Z;      (* grub_off_t offset *)
  file_size   : Z;      (* grub_off_t size *)
  file_data   : Z       (* void *data, private to the engine *)
}.

(** [struct grub_disk]: only [data] is ever populated. *)
Record grub_disk := mk_grub_disk {
  disk_data : Z         (* void *data: back-reference to the EFI_FS *)
}.

(** [struct grub_device]. *)
Record grub_device := mk_grub_device {
  device_disk : Z       (* grub_disk_t disk *)
}.

(** [EFI_FILE]: the dispatch surface of a host file object, kept abstract. *)
Definition EFI_FILE := Z.

(** [EFI_GRUB_FILE]: the host-level wrapper of a FileSession. *)
Record EFI_GRUB_FILE := mk_EFI_GRUB_FILE {
  EfiFile    : EFI_FILE;
  path       : string;  (* CHAR8 *path; the empty string for a null path *)
  GrubFile   : Z;       (* VOID *GrubFile *)
  FileSystem : Z        (* EFI_FS *FileSystem *)
}.

(** The host block transport of an instance; its media descriptor belongs
    to the host and is read for its identifier only. *)
Record EFI_BLOCK_IO := mk_EFI_BLOCK_IO {
  MediaId : Z           (* BlockIo->Media->MediaId *)
}.

(** [EFI_FS]: one mounted instance.  [DiskIo] and [BlockIo] are the host
    protocol interfaces, [None] when the pointer is null. *)
Record EFI_FS := mk_EFI_FS {
  DiskIo     : option Z;
  BlockIo    : option EFI_BLOCK_IO;
  RootFile   : Z;       (* EFI_GRUB_FILE *RootFile *)
  GrubDevice : Z        (* VOID *GrubDevice *)
}.

(** What a live block of memory holds. *)
Inductive object :=
| Obj_grub_file (f : grub_file)
| Obj_grub_disk (d : grub_disk)
| Obj_grub_device (d : grub_device)
| Obj_EFI_GRUB_FILE (F : EFI_GRUB_FILE)
| Obj_EFI_FS (inst : EFI_FS).

(** The state shared by the adapter and the engine: the globals
    [grub_errno], [grub_fs_list] and [LogLevel], and the live memory blocks. *)
Record State := mk_State {
  grub_errno   : Z;
  grub_fs_list : Z;
  LogLevel     : Z;
  heap         : gmap Z object
}.

Definition set_grub_errno (e : Z) (s : State) : State :=
  mk_State e (grub_fs_list s) (LogLevel s) (heap s).

Definition set_heap (h : gmap Z object) (s : State) : State :=
  mk_State (grub_errno s) (grub_fs_list s) (LogLevel s) h.

(** ** Observable actions

    What the adapter does to its collaborators is recorded in a trace that
    the engine cannot touch: every call into the engine (with the value of
    [grub_errno] at the moment of the call), every line logged and every
    read issued to the host block transport. *)

Inductive engine_call :=
| call_dir (device : Z) (path : string) (hook_data : Z)
| call_open (file : Z) (path : string)
| call_close (file : Z)
| call_read (file : Z) (buf : Z) (len : Z)
| call_label (device : Z).

Inductive event :=
| EvEngine (c : engine_call) (errno_on_entry : Z)
| EvPrintError (msg : string)
| EvPrintStatusError (status : Z) (msg : string)
| EvGrubPrintError (err : Z)
| EvReadDisk (this : Z) (media_id : Z) (byte_offset : Z) (len : Z) (buf : Z).

Record World := mk_World {
  st    : State;
  trace : list event
}.

(** ** The monad of the adapter: state, trace, and a fault outcome for the
    dereference of a null or dangling pointer. *)

Inductive result (A : Type) :=
| Done (a : A) (w : World)
| Fault.
Arguments Done {A} a w.
Arguments Fault {A}.

Definition M (A : Type) : Type := World → result A.

#[global] Instance M_ret : MRet M := λ A a w, Done a w.

#[global] Instance M_bind : MBind M := λ A B k m w,
  match m w with
  | Done a w' => k a w'
  | Fault => Fault
  end.

Definition fault {A} : M A := λ _, Fault.

Definition gets {A} (proj : State → A) : M A := λ w, Done (proj (st w)) w.

Definition modify (f : State → State) : M unit :=
  λ w, Done tt (mk_World (f (st w)) (trace w)).

Definition emit (e : event) : M unit :=
  λ w, Done tt (mk_World (st w) (trace w ++ [e])).

(** Loads and stores through a typed pointer. *)
Definition load_grub_file (a : Z) : M grub_file :=
  λ w, match heap (st w) !! a with
       | Some (Obj_grub_file f) => Done f w
       | _ => Fault
       end.

Definition load_grub_disk (a : Z) : M grub_disk :=
  λ w, match heap (st w) !! a with
       | Some (Obj_grub_disk d) => Done d w
       | _ => Fault
       end.

Definition load_grub_device (a : Z) : M grub_device :=
  λ w, match heap (st w) !! a with
       | Some (Obj_grub_device d) => Done d w
       | _ => Fault
       end.

Definition load_EFI_GRUB_FILE (a : Z) : M EFI_GRUB_FILE :=
  λ w, match heap (st w) !! a with
       | Some (Obj_EFI_GRUB_FILE F) => Done F w
       | _ => Fault
       end.

Definition load_EFI_FS (a : Z) : M EFI_FS :=
  λ w, match heap (st w) !! a with
       | Some (Obj_EFI_FS inst) => Done inst w
       | _ => Fault
       end.

Definition store (a : Z) (o : object) : M unit :=
  λ w, match heap (st w) !! a with
       | Some _ => Done tt (mk_World (set_heap (<[a:=o]> (heap (st w))) (st w)) (trace w))
       | None => Fault
       end.

(** Field updates. *)
Definition with_file_device (v : Z) (f : grub_file) : grub_file :=
  mk_grub_file v (file_fs f) (file_offset f) (file_size f) (file_data f).

Definition with_file_fs (v : Z) (f : grub_file) : grub_file :=
  mk_grub_file (file_device f) v (file_offset f) (file_size f) (file_data f).

Definition with_file_offset (v : Z) (f : grub_file) : grub_file :=
  mk_grub_file (file_device f) (file_fs f) v (file_size f) (file_data f).

Definition with_EfiFile (v : EFI_FILE) (F : EFI_GRUB_FILE) : EFI_GRUB_FILE :=
  mk_EFI_GRUB_FILE v (path F) (GrubFile F) (FileSystem F).

Definition with_GrubFile (v : Z) (F : EFI_GRUB_FILE) : EFI_GRUB_FILE :=
  mk_EFI_GRUB_FILE (EfiFile F) (path F) v (FileSystem F).

Definition with_FileSystem (v : Z) (F : EFI_GRUB_FILE) : EFI_GRUB_FILE :=
  mk_EFI_GRUB_FILE (EfiFile F) (path F) (GrubFile F) v.

Definition with_GrubDevice (v : Z) (inst : EFI_FS) : EFI_FS :=
  mk_EFI_FS (DiskIo inst) (BlockIo inst) (RootFile inst) v.

(** [a->field = v] for each of the structures written by the file. *)
Definition update_grub_file (a : Z) (upd : grub_file → grub_file) : M unit :=
  f ← load_grub_file a; store a (Obj_grub_file (upd f)).

Definition update_EFI_GRUB_FILE (a : Z) (upd : EFI_GRUB_FILE → EFI_GRUB_FILE) : M unit :=
  F ← load_EFI_GRUB_FILE a; store a (Obj_EFI_GRUB_FILE (upd F)).

Definition update_EFI_FS (a : Z) (upd : EFI_FS → EFI_FS) : M unit :=
  inst ← load_EFI_FS a; store a (Obj_EFI_FS (upd inst)).

(** Zero-filled blocks, as [AllocateZeroPool] and [grub_zalloc] hand out. *)
Definition zero_grub_file : grub_file := mk_grub_file NULL NULL 0 0 NULL.
Definition zero_grub_disk : grub_disk := mk_grub_disk NULL.
Definition zero_grub_device : grub_device := mk_grub_device NULL.
Definition zero_EFI_GRUB_FILE : EFI_GRUB_FILE := mk_EFI_GRUB_FILE 0 "" NULL NULL.

(** ** The engine

    [struct grub_fs]: the operation table of the filesystem engine.  Each
    operation is a function of the shared state; it may change any part of
    it, [grub_errno] and the FileSession it is handed included.  A directory
    hook receives the entry name, the entry's [grub_dirhook_info] and the
    caller's data pointer. *)

Definition dirhook : Type := string → Z → Z → State → Z * State.

Record grub_fs := mk_grub_fs {
  fs_dir   : Z → string → dirhook → Z → State → Z * State;
  fs_open  : Z → string → State → Z * State;
  fs_read  : Z → Z → Z → State → Z * State;
  fs_close : Z → State → Z * State;
  fs_label : Z → Z → State → Z * State
}.

(** A call through the operation table: the call is recorded with the value
    [grub_errno] has when the engine is entered, then the engine runs. *)
Definition invoke {A} (c : engine_call) (op : State → A * State) : M A :=
  λ w, let '(a, s') := op (st w) in
       Done a (mk_World s' (trace w ++ [EvEngine c (grub_errno (st w))])).

(** Modelled from the spec: the driver's logging primitive [PrintError] is
    defined outside this file; each call is recorded, whether or not the log
    level lets it reach the console. *)
Definition PrintError (msg : string) : M unit := emit (EvPrintError msg).

(** Modelled from the spec: [PrintStatusError], the logging primitive that
    takes a host status, is defined outside this file; each call is
    recorded. *)
Definition PrintStatusError (Status : Z) (msg : string) : M unit :=
  emit (EvPrintStatusError Status msg).

(** Modelled from the spec: [grub_print_error] is defined outside this file;
    section 6 calls it the last-error-consuming log primitive, and the
    comment at its call site says that it resets [grub_errno]. *)
Definition grub_print_error : M unit :=
  e ← gets grub_errno;
  emit (EvGrubPrintError e);;
  modify (set_grub_errno 0).

(** ** Sample engines and states

    Concrete collaborators on which the properties below are exercised. *)

(** An engine that serves every read in full, reports an empty root
    directory without calling the hook, and never touches the state. *)
Definition obliging_engine : grub_fs :=
  mk_grub_fs (λ _ _ _ _ s, (0, s)) (λ _ _ s, (0, s)) (λ _ _ n s, (n, s))
             (λ _ s, (0, s)) (λ _ _ s, (0, s)).

(** An engine every operation of which fails with the error [e], raising
    [grub_errno]; its read answers -1. *)
Definition failing_engine (e : Z) : grub_fs :=
  mk_grub_fs (λ _ _ _ _ s, (e, set_grub_errno e s))
             (λ _ _ s, (e, set_grub_errno e s))
             (λ _ _ _ s, (-1, set_grub_errno e s))
             (λ _ s, (e, set_grub_errno e s))
             (λ _ _ s, (e, set_grub_errno e s)).

(** The status codes of an X64 host: the top bit of the 64-bit word marks
    an error. *)
Definition X64_EFI_OUT_OF_RESOURCES : Z := Z.lor (2 ^ 63) 9.
Definition X64_EFI_ERROR (Status : Z) : bool := 2 ^ 63 <=? Status.

(** A translator in the sense of section 4.1: success for "no error", one
    failure status (the X64 [EFI_DEVICE_ERROR]) for everything else. *)
Definition sample_translator (e : Z) : Z :=
  if e =? 0 then 0 else Z.lor (2 ^ 63) 7.

(** One mounted instance at address 5 with its device (3) and disk (4), its
    root file (6), and one open file: wrapper at 1, FileSession at 2. *)
Definition sample_heap (offset size : Z) : gmap Z object :=
  <[1 := Obj_EFI_GRUB_FILE (mk_EFI_GRUB_FILE 11 "/boot/kernel" 2 5)]>
  (<[2 := Obj_grub_file (mk_grub_file 3 7 offset size 0)]>
  (<[3 := Obj_grub_device (mk_grub_device 4)]>
  (<[4 := Obj_grub_disk (mk_grub_disk 5)]>
  (<[5 := Obj_EFI_FS (mk_EFI_FS (Some 50) (Some (mk_EFI_BLOCK_IO 9)) 6 3)]>
  (<[6 := Obj_EFI_GRUB_FILE (mk_EFI_GRUB_FILE 11 "/" 0 5)]> ∅))))).

Definition sample_wrapper : EFI_GRUB_FILE :=
  mk_EFI_GRUB_FILE 11 "/boot/kernel" 2 5.

Definition sample_instance : EFI_FS :=
  mk_EFI_FS (Some 50) (Some (mk_EFI_BLOCK_IO 9)) 6 3.

(** The engine is registered at address 7; [errno] is the pending error and
    [lvl] the log level. *)
Definition sample_world (errno lvl offset size : Z) : World :=
  mk_World (mk_State errno 7 lvl (sample_heap offset size)) [].

(** An instance whose device was never initialised, with a registered
    engine. *)
Definition world_without_device : World :=
  mk_World (mk_State 0 7 0
    (<[5 := Obj_EFI_FS (mk_EFI_FS (Some 50) (Some (mk_EFI_BLOCK_IO 9)) 6 NULL)]> ∅)) [].

(** A pool that serves a request only while fewer than [n] blocks are live. *)
Definition pool_of (n : nat) (h : gmap Z object) : bool :=
  bool_decide (size h < n)%nat.

(** A block transport that serves every read ([EFI_SUCCESS]). *)
Definition transport_ok (this media_id byte_offset len buf : Z) (s : State) : Z := 0.

(** An engine that follows the convention of the engine's own sources: each
    status-returning operation returns the pending [grub_errno]; reads are
    served in full; the state is left alone. *)
Definition candid_engine : grub_fs :=
  mk_grub_fs (λ _ _ _ _ s, (grub_errno s, s)) (λ _ _ s, (grub_errno s, s))
             (λ _ _ n s, (n, s)) (λ _ s, (grub_errno s, s))
             (λ _ _ s, (grub_errno s, s)).

(** The sample world with nothing registered. *)
Definition world_without_registry : World :=
  mk_World (mk_State 0 NULL 0 (sample_heap 900 1000)) [].

(** The sample world with a second open file: wrapper at 8, FileSession
    at 9. *)
Definition second_wrapper : EFI_GRUB_FILE := mk_EFI_GRUB_FILE 11 "/etc/fstab" 9 5.

Definition two_files_world : World :=
  mk_World (mk_State 0 7 0
    (<[8 := Obj_EFI_GRUB_FILE second_wrapper]>
    (<[9 := Obj_grub_file (mk_grub_file 3 7 40 500 0)]> (sample_heap 900 1000)))) [].

(** ** The functions of grub_file.c *)

Section GrubFile.

Set Default Proof Using "Type".

(** What the file takes from headers and collaborators that are not part of
    it: the width of a machine word; the host's status codes [EFI_SUCCESS]
    and [EFI_OUT_OF_RESOURCES] and its test [EFI_ERROR]; the engine linked
    into the driver (the object [grub_fs_list] points to when it is not
    null); the error translator; two constants of the engine; a constant of
    the driver's logging; the memory pool's decision to serve a request; and
    the status the host block transport answers a read with. *)
Variable nbits : Z.
Variable EFI_SUCCESS : Z.
Variable EFI_OUT_OF_RESOURCES : Z.
Variable EFI_ERROR : Z → bool.
Variable engine : grub_fs.
Variable GrubErrToEFIStatus : Z → Z.
Variable GRUB_ERR_READ_ERROR : Z.
Variable GRUB_DISK_SECTOR_SIZE : Z.
Variable FS_LOGLEVEL_INFO : Z.
Variable pool_has_room : gmap Z object → bool.
Variable ReadDisk_status : Z → Z → Z → Z → Z → State → Z.

Definition to_UINTN (x : Z) : Z := to_unsigned nbits x.
Definition to_INTN (x : Z) : Z := to_signed nbits x.

(** [p->op]: dereferencing the registry slot. *)
Definition deref_fs (p : Z) : M grub_fs :=
  if p =? NULL then fault else mret engine.

(** *** Memory pool *)

(** The address a served request receives: neither null nor live. *)
Definition next_block (h : gmap Z object) : Z :=
  fresh (({[NULL]} : gset Z) ∪ dom h).

(** Modelled from the spec: the allocation primitives are external
    collaborators.  [AllocateZeroPool] either refuses the request (null) or
    serves it with a zero-filled block at [next_block]; [pool_has_room]
    decides which. *)
Definition AllocateZeroPool (zero : object) : M Z :=
  λ w, let h := heap (st w) in
       if pool_has_room h then
         let a := next_block h in
         Done a (mk_World (set_heap (<[a:=zero]> h) (st w)) (trace w))
       else Done NULL w.

(** Modelled from the spec: [FreePool] releases a live block; releasing a
    block that is not live is a fault. *)
Definition FreePool (a : Z) : M unit :=
  λ w, match heap (st w) !! a with
       | Some _ => Done tt (mk_World (set_heap (delete a (heap (st w))) (st w)) (trace w))
       | None => Fault
       end.

(** Modelled from the spec: [grub_zalloc] and [grub_free], the engine-side
    names of the same pool. *)
Definition grub_zalloc (zero : object) : M Z := AllocateZeroPool zero.

(** Modelled from the spec: see [grub_zalloc]. *)
Definition grub_free (a : Z) : M unit := FreePool a.

(** *** Block-read shim *)

(** [DiskIo->ReadDisk(DiskIo, MediaId, Offset, BufferSize, Buffer)]. *)
Definition ReadDisk (this media_id byte_offset len buf : Z) : M Z :=
  emit (EvReadDisk this media_id byte_offset len buf);;
  gets (ReadDisk_status this media_id byte_offset len buf).

Definition grub_disk_read (disk sector offset size buf : Z) : M Z :=
  d ← load_grub_disk disk;
  let FileSystem := disk_data d in
  if FileSystem =? NULL then mret GRUB_ERR_READ_ERROR else
  inst ← load_EFI_FS FileSystem;
  match DiskIo inst, BlockIo inst with
  | Some dio, Some bio =>
      Status ← ReadDisk dio (MediaId bio)
                 (to_UINT64 (sector * GRUB_DISK_SECTOR_SIZE + offset)) size buf;
      if EFI_ERROR Status then
        PrintStatusError Status "Could not read block at address %08x";;
        mret GRUB_ERR_READ_ERROR
      else mret 0
  | _, _ => mret GRUB_ERR_READ_ERROR
  end.

(** *** Device lifecycle *)

Definition grub_device_open (name : Z) : M Z :=
  device ← grub_zalloc (Obj_grub_device zero_grub_device);
  if device =? NULL then mret NULL else
  d ← grub_zalloc (Obj_grub_disk zero_grub_disk);
  store device (Obj_grub_device (mk_grub_device d));;
  dev ← load_grub_device device;
  if device_disk dev =? NULL then
    grub_free device;;
    mret NULL
  else
    store (device_disk dev) (Obj_grub_disk (mk_grub_disk name));;
    mret device.

Definition grub_device_close (device : Z) : M Z :=
  dev ← load_grub_device device;
  grub_free (device_disk dev);;
  grub_free device;;
  mret 0.

Definition GrubDeviceInit (This : Z) : M Z :=
  d ← grub_device_open This;
  update_EFI_FS This (with_GrubDevice d);;
  inst ← load_EFI_FS This;
  if GrubDevice inst =? NULL then mret EFI_OUT_OF_RESOURCES
  else mret EFI_SUCCESS.

Definition GrubDeviceExit (This : Z) : M Z :=
  inst ← load_EFI_FS This;
  grub_device_close (GrubDevice inst);;
  mret EFI_SUCCESS.

(** *** FileSession lifecycle

    [GrubCreateFile] answers with its status and with what it stored through
    [File], [None] when it stored nothing. *)
Definition GrubCreateFile (This : Z) : M (Z * option Z) :=
  NewFile ← AllocateZeroPool (Obj_EFI_GRUB_FILE zero_EFI_GRUB_FILE);
  if NewFile =? NULL then mret (EFI_OUT_OF_RESOURCES, None) else
  g ← AllocateZeroPool (Obj_grub_file zero_grub_file);
  update_EFI_GRUB_FILE NewFile (with_GrubFile g);;
  F ← load_EFI_GRUB_FILE NewFile;
  if GrubFile F =? NULL then
    FreePool NewFile;;
    mret (EFI_OUT_OF_RESOURCES, None)
  else
    update_EFI_GRUB_FILE NewFile (with_FileSystem This);;
    inst ← load_EFI_FS This;
    root ← load_EFI_GRUB_FILE (RootFile inst);
    update_EFI_GRUB_FILE NewFile (with_EfiFile (EfiFile root));;
    F ← load_EFI_GRUB_FILE NewFile;
    let f := GrubFile F in
    inst ← load_EFI_FS This;
    update_grub_file f (with_file_device (GrubDevice inst));;
    p ← gets grub_fs_list;
    update_grub_file f (with_file_fs p);;
    mret (EFI_SUCCESS, Some NewFile).

Definition GrubDestroyFile (File : Z) : M unit :=
  F ← load_EFI_GRUB_FILE File;
  FreePool (GrubFile F);;
  FreePool File.

Definition GrubGetFileSize (File : Z) : M Z :=
  F ← load_EFI_GRUB_FILE File;
  f ← load_grub_file (GrubFile F);
  mret (to_UINT64 (file_size f)).

Definition GrubGetFileOffset (File : Z) : M Z :=
  F ← load_EFI_GRUB_FILE File;
  f ← load_grub_file (GrubFile F);
  mret (to_UINT64 (file_offset f)).

Definition GrubSetFileOffset (File : Z) (Offset : Z) : M unit :=
  F ← load_EFI_GRUB_FILE File;
  update_grub_file (GrubFile F) (with_file_offset (to_UINT64 Offset)).

(** *** The EFI interface of each basic engine call *)

Definition GrubDir (File : Z) (dirpath : string) (Hook : dirhook) (HookData : Z) : M Z :=
  p ← gets grub_fs_list;
  F ← load_EFI_GRUB_FILE File;
  let f := GrubFile F in
  modify (set_grub_errno 0);;
  ops ← deref_fs p;
  g ← load_grub_file f;
  rc ← invoke (call_dir (file_device g) dirpath HookData)
         (fs_dir ops (file_device g) dirpath Hook HookData);
  mret (GrubErrToEFIStatus rc).

Definition GrubOpen (File : Z) : M Z :=
  p ← gets grub_fs_list;
  F ← load_EFI_GRUB_FILE File;
  let f := GrubFile F in
  modify (set_grub_errno 0);;
  ops ← deref_fs p;
  rc ← invoke (call_open f (path F)) (fs_open ops f (path F));
  mret (GrubErrToEFIStatus rc).

Definition GrubClose (File : Z) : M unit :=
  p ← gets grub_fs_list;
  F ← load_EFI_GRUB_FILE File;
  let f := GrubFile F in
  modify (set_grub_errno 0);;
  ops ← deref_fs p;
  _ ← invoke (call_close f) (fs_close ops f);
  mret tt.

(** The first two statements of [GrubRead]: [Remaining = f->size - f->offset]
    is a 64-bit unsigned difference stored in an [INTN]; in [*Len > Remaining]
    an [UINTN] meets an [INTN], so [Remaining] is converted to [UINTN] for
    the comparison, as it is again by the assignment [*Len = Remaining]. *)
Definition Remaining (g : grub_file) : Z :=
  to_INTN (to_UINT64 (file_size g - file_offset g)).

Definition clamped_Len (g : grub_file) (Len : Z) : Z :=
  if Len >? to_UINTN (Remaining g) then to_UINTN (Remaining g) else Len.

(** [GrubRead] answers with its status and with the value it leaves in
    [*Len].  [Len] on entry is the value of [*Len], a [UINTN]. *)
Definition GrubRead (File : Z) (Data : Z) (Len : Z) : M (Z * Z) :=
  p ← gets grub_fs_list;
  F ← load_EFI_GRUB_FILE File;
  let f := GrubFile F in
  g ← load_grub_file f;
  let Len := clamped_Len g Len in
  ops ← deref_fs p;
  len ← invoke (call_read f Data Len) (fs_read ops f Data Len);
  if len <? 0 then
    e ← gets grub_errno;
    mret (GrubErrToEFIStatus e, 0)
  else
    update_grub_file f (λ g, with_file_offset (to_UINT64 (file_offset g + len)) g);;
    mret (EFI_SUCCESS, to_UINTN len).

Definition GrubLabel (File : Z) (label : Z) : M Z :=
  p ← gets grub_fs_list;
  F ← load_EFI_GRUB_FILE File;
  let f := GrubFile F in
  modify (set_grub_errno 0);;
  ops ← deref_fs p;
  g ← load_grub_file f;
  rc ← invoke (call_label (file_device g)) (fs_label ops (file_device g) label);
  mret (GrubErrToEFIStatus rc).

(** *** Probe *)

Definition probe_dummy_iter : dirhook := λ _ _ _ s, (1, s).

Definition GrubFSProbe (This : Z) : M bool :=
  p ← gets grub_fs_list;
  inst ← load_EFI_FS This;
  let device := GrubDevice inst in
  uninitialized ←
    (if p =? NULL then mret true
     else dev ← load_grub_device device; mret (device_disk dev =? NULL));
  if (uninitialized : bool) then
    PrintError "GrubFSProbe: uninitialized variables";;
    mret false
  else
    modify (set_grub_errno 0);;
    ops ← deref_fs p;
    _ ← invoke (call_dir device "/" NULL) (fs_dir ops device "/" probe_dummy_iter NULL);
    e ← gets grub_errno;
    if negb (e =? 0) then
      lvl ← gets LogLevel;
      (if lvl >=? FS_LOGLEVEL_INFO then grub_print_error else mret tt);;
      mret false
    else mret true.

(** ** Properties *)

(** A live file handle: [File] points to a wrapper [F] whose [GrubFile]
    points to the FileSession [g]. *)
Definition file_at (s : State) (File : Z) (F : EFI_GRUB_FILE) (g : grub_file) : Prop :=
  heap s !! File = Some (Obj_EFI_GRUB_FILE F) ∧
  heap s !! GrubFile F = Some (Obj_grub_file g).

(** The contract of the engine's read, as section 4.6 and the comment in
    [GrubRead] have it: it returns no more than it was asked for, and it
    leaves the FileSession in place with its offset and size as they were. *)
Definition read_returns_at_most_asked : Prop :=
  ∀ f buf n s, (fs_read engine f buf n s).1 ≤ n.

Definition read_leaves_position : Prop :=
  ∀ f buf n s g,
    heap s !! f = Some (Obj_grub_file g) →
    ∃ g', heap (fs_read engine f buf n s).2 !! f = Some (Obj_grub_file g') ∧
          file_offset g' = file_offset g ∧ file_size g' = file_size g.

(** The root walk of the probe: the engine's [dir] on "/" with the hook that
    stops at the first entry, entered with [grub_errno] cleared. *)
Definition root_walk (device : Z) (s : State) : Z * State :=
  fs_dir engine device "/" probe_dummy_iter NULL (set_grub_errno 0 s).

(** The world after [*a = o]. *)
Definition heap_update (a : Z) (o : object) (w : World) : World :=
  mk_World (set_heap (<[a:=o]> (heap (st w))) (st w)) (trace w).

(** The world after the block at [a] has been released. *)
Definition heap_release (a : Z) (w : World) : World :=
  mk_World (set_heap (delete a (heap (st w))) (st w)) (trace w).

(** The device and the disk that [grub_device_open] builds for [name]. *)
Definition opened_device (name : Z) (w : World) : Z * Z * World :=
  let device := next_block (heap (st w)) in
  let w1 := heap_update device (Obj_grub_device zero_grub_device) w in
  let disk := next_block (heap (st w1)) in
  (device, disk,
   heap_update disk (Obj_grub_disk (mk_grub_disk name))
     (heap_update device (Obj_grub_device (mk_grub_device disk)) w)).

(** The wrapper and the FileSession that [GrubCreateFile] builds on the
    instance [This], whose contents are [inst] and whose root file is
    [root]. *)
Definition created_file (This : Z) (inst : EFI_FS) (root : EFI_GRUB_FILE)
    (w : World) : Z * Z * World :=
  let NewFile := next_block (heap (st w)) in
  let w1 := heap_update NewFile (Obj_EFI_GRUB_FILE zero_EFI_GRUB_FILE) w in
  let f := next_block (heap (st w1)) in
  (NewFile, f,
   heap_update f
     (Obj_grub_file (mk_grub_file (GrubDevice inst) (grub_fs_list (st w)) 0 0 NULL))
     (heap_update NewFile
        (Obj_EFI_GRUB_FILE (mk_EFI_GRUB_FILE (EfiFile root) "" f This)) w)).

(** The convention of the engine's status-returning operations: what they
    return is what they leave in [grub_errno]. *)
Definition engine_returns_errno : Prop :=
  (∀ dev p hook data s,
     (fs_dir engine dev p hook data s).1 = grub_errno (fs_dir engine dev p hook data s).2) ∧
  (∀ f p s, (fs_open engine f p s).1 = grub_errno (fs_open engine f p s).2) ∧
  (∀ dev label s,
     (fs_label engine dev label s).1 = grub_errno (fs_label engine dev label s).2).

(** A translator that keeps success for "no error". *)
Definition translator_faithful : Prop :=
  ∀ e, GrubErrToEFIStatus e = EFI_SUCCESS → e = 0.

(** An engine whose close releases its own resources only. *)
Definition close_leaves_memory : Prop :=
  ∀ f s, heap (fs_close engine f s).2 = heap s.

(** An engine whose read serves in full every request that its result type,
    the signed machine word [grub_ssize_t], can report; and one whose read
    leaves the memory blocks and the registry alone. *)
Definition read_serves_in_full : Prop :=
  ∀ f buf n s, 0 ≤ n < 2 ^ (nbits - 1) → (fs_read engine f buf n s).1 = n.

Definition read_leaves_memory : Prop :=
  ∀ f buf n s,
    heap (fs_read engine f buf n s).2 = heap s ∧
    grub_fs_list (fs_read engine f buf n s).2 = grub_fs_list s.

(** *** Running the monad, one statement at a time *)

Lemma run_bind {A B} (m : M A) (k : A → M B) w a w' :
  m w = Done a w' → (m ≫= k) w = k a w'.
Proof. intros H. unfold mbind, M_bind. by rewrite H. Qed.

Lemma run_ret {A} (a : A) w : (mret a : M A) w = Done a w.
Proof. reflexivity. Qed.

Lemma run_gets {A} (proj : State → A) w : gets proj w = Done (proj (st w)) w.
Proof. reflexivity. Qed.

Lemma run_modify f w : modify f w = Done tt (mk_World (f (st w)) (trace w)).
Proof. reflexivity. Qed.

Lemma run_emit e w : emit e w = Done tt (mk_World (st w) (trace w ++ [e])).
Proof. reflexivity. Qed.

Lemma run_PrintError msg w :
  PrintError msg w = Done tt (mk_World (st w) (trace w ++ [EvPrintError msg])).
Proof. reflexivity. Qed.

Lemma run_PrintStatusError Status msg w :
  PrintStatusError Status msg w =
  Done tt (mk_World (st w) (trace w ++ [EvPrintStatusError Status msg])).
Proof. reflexivity. Qed.

Lemma run_load_grub_file a f w :
  heap (st w) !! a = Some (Obj_grub_file f) → load_grub_file a w = Done f w.
Proof. intros H. unfold load_grub_file. by rewrite H. Qed.

Lemma run_load_grub_disk a d w :
  heap (st w) !! a = Some (Obj_grub_disk d) → load_grub_disk a w = Done d w.
Proof. intros H. unfold load_grub_disk. by rewrite H. Qed.

Lemma run_load_grub_device a d w :
  heap (st w) !! a = Some (Obj_grub_device d) → load_grub_device a w = Done d w.
Proof. intros H. unfold load_grub_device. by rewrite H. Qed.

Lemma run_load_EFI_GRUB_FILE a F w :
  heap (st w) !! a = Some (Obj_EFI_GRUB_FILE F) → load_EFI_GRUB_FILE a w = Done F w.
Proof. intros H. unfold load_EFI_GRUB_FILE. by rewrite H. Qed.

Lemma run_load_EFI_FS a inst w :
  heap (st w) !! a = Some (Obj_EFI_FS inst) → load_EFI_FS a w = Done inst w.
Proof. intros H. unfold load_EFI_FS. by rewrite H. Qed.

Lemma run_store a o w :
  is_Some (heap (st w) !! a) → store a o w = Done tt (heap_update a o w).
Proof. intros [x H]. unfold store. by rewrite H. Qed.

Lemma run_update_grub_file a upd f w :
  heap (st w) !! a = Some (Obj_grub_file f) →
  update_grub_file a upd w = Done tt (heap_update a (Obj_grub_file (upd f)) w).
Proof.
  intros H. unfold update_grub_file.
  rewrite (run_bind _ _ _ _ _ (run_load_grub_file _ _ _ H)).
  apply run_store. eauto.
Qed.

Lemma run_update_EFI_GRUB_FILE a upd F w :
  heap (st w) !! a = Some (Obj_EFI_GRUB_FILE F) →
  update_EFI_GRUB_FILE a upd w = Done tt (heap_update a (Obj_EFI_GRUB_FILE (upd F)) w).
Proof.
  intros H. unfold update_EFI_GRUB_FILE.
  rewrite (run_bind _ _ _ _ _ (run_load_EFI_GRUB_FILE _ _ _ H)).
  apply run_store. eauto.
Qed.

Lemma run_update_EFI_FS a upd inst w :
  heap (st w) !! a = Some (Obj_EFI_FS inst) →
  update_EFI_FS a upd w = Done tt (heap_update a (Obj_EFI_FS (upd inst)) w).
Proof.
  intros H. unfold update_EFI_FS.
  rewrite (run_bind _ _ _ _ _ (run_load_EFI_FS _ _ _ H)).
  apply run_store. eauto.
Qed.

Lemma run_invoke {A} c (op : State → A * State) w :
  invoke c op w =
  Done (op (st w)).1 (mk_World (op (st w)).2 (trace w ++ [EvEngine c (grub_errno (st w))])).
Proof. unfold invoke. by destruct (op (st w)). Qed.

Lemma run_deref_fs p w : p ≠ NULL → deref_fs p w = Done engine w.
Proof. intros H. unfold deref_fs. by destruct (Z.eqb_spec p 0). Qed.

Lemma heap_update_lookup a o w : heap (st (heap_update a o w)) !! a = Some o.
Proof. cbn. apply lookup_insert_eq. Qed.

Lemma heap_update_lookup_ne a b o w :
  a ≠ b → heap (st (heap_update a o w)) !! b = heap (st w) !! b.
Proof. intros H. cbn. by apply lookup_insert_ne. Qed.

Create HintDb run discriminated.
#[local] Hint Resolve run_ret run_gets run_modify run_emit run_load_grub_file
  run_load_grub_disk run_load_grub_device run_load_EFI_GRUB_FILE
  run_load_EFI_FS run_store run_update_grub_file run_update_EFI_GRUB_FILE
  run_update_EFI_FS run_invoke run_deref_fs run_PrintError
  run_PrintStatusError : run.

(** [step] runs the first statement of the program in the goal. *)
Ltac step := erewrite run_bind by (eauto with run).

(** *** Integer conversions *)

Lemma to_unsigned_le w x : 0 ≤ x → to_unsigned w x ≤ x.
Proof.
  intros Hx. unfold to_unsigned.
  destruct (Z.eq_dec (2 ^ w) 0) as [E|E].
  - rewrite E, Z.mod_0_r. lia.
  - apply Z.mod_le; [done|]. pose proof (Z.pow_nonneg 2 w). lia.
Qed.

Lemma to_unsigned_small w x : 0 ≤ x < 2 ^ w → to_unsigned w x = x.
Proof. intros Hx. unfold to_unsigned. by apply Z.mod_small. Qed.

Lemma to_unsigned_signed w x : to_unsigned w (to_signed w x) = to_unsigned w x.
Proof.
  unfold to_unsigned, to_signed. cbv zeta.
  destruct (x mod 2 ^ w <? 2 ^ (w - 1)).
  - apply Zmod_mod.
  - replace (x mod 2 ^ w - 2 ^ w) with (x mod 2 ^ w + (-1) * 2 ^ w) by lia.
    rewrite Z_mod_plus_full. apply Zmod_mod.
Qed.

(** *** The clamp of [GrubRead] *)

(** The length handed to the engine is the smaller of the requested length
    and the 64-bit difference [size - offset], reduced to a machine word. *)
Lemma clamped_Len_min g Len :
  clamped_Len g Len = Z.min Len (to_UINTN (to_UINT64 (file_size g - file_offset g))).
Proof.
  unfold clamped_Len, Remaining, to_UINTN, to_INTN.
  rewrite to_unsigned_signed.
  destruct (Z.gtb_spec Len (to_unsigned nbits (to_UINT64 (file_size g - file_offset g)))); lia.
Qed.

Lemma clamped_Len_le_remaining g Len :
  file_offset g ≤ file_size g → clamped_Len g Len ≤ file_size g - file_offset g.
Proof.
  intros H. rewrite clamped_Len_min. unfold to_UINTN, to_UINT64.
  pose proof (to_unsigned_le 64 (file_size g - file_offset g)).
  pose proof (to_unsigned_le nbits (to_unsigned 64 (file_size g - file_offset g))).
  assert (0 ≤ to_unsigned 64 (file_size g - file_offset g)).
  { unfold to_unsigned. apply Z.mod_pos_bound. lia. }
  lia.
Qed.

(** [GrubRead] up to the answer of the engine. *)
Lemma GrubRead_run w File F g Data Len :
  grub_fs_list (st w) ≠ NULL →
  file_at (st w) File F g →
  let f := GrubFile F in
  let L := clamped_Len g Len in
  let r := fs_read engine f Data L (st w) in
  let w1 := mk_World r.2 (trace w ++ [EvEngine (call_read f Data L) (grub_errno (st w))]) in
  GrubRead File Data Len w =
  if r.1 <? 0 then Done (GrubErrToEFIStatus (grub_errno r.2), 0) w1
  else (update_grub_file f (λ g, with_file_offset (to_UINT64 (file_offset g + r.1)) g);;
        mret (EFI_SUCCESS, to_UINTN r.1)) w1.
Proof.
  intros Hp [HF Hg]. cbv zeta. unfold GrubRead.
  do 5 step.
  destruct (_ <? 0); [|done].
  by step.
Qed.

(** C1: for a FileSession with 0 <= offset <= size and an engine whose read
    returns at most the length asked for and leaves the session's position
    alone, [GrubRead] returns an actual length of at most size - offset and
    leaves the offset at most size, whatever length was requested. *)
Theorem GrubRead_never_past_size w File F g Data Len :
  grub_fs_list (st w) ≠ NULL →
  file_at (st w) File F g →
  0 ≤ file_offset g ≤ file_size g →
  read_returns_at_most_asked →
  read_leaves_position →
  ∃ Status Len' w' g',
    GrubRead File Data Len w = Done (Status, Len') w' ∧
    Len' ≤ file_size g - file_offset g ∧
    heap (st w') !! GrubFile F = Some (Obj_grub_file g') ∧
    file_size g' = file_size g ∧
    file_offset g' ≤ file_size g'.
Proof.
  intros Hp Hfile Hinv Hmost Hpos.
  rewrite (GrubRead_run _ _ _ _ _ _ Hp Hfile). cbv zeta.
  pose proof (clamped_Len_le_remaining g Len (proj2 Hinv)) as Hclamp.
  pose proof (Hmost (GrubFile F) Data (clamped_Len g Len) (st w)) as Hlen.
  destruct (Hpos (GrubFile F) Data (clamped_Len g Len) (st w) g (proj2 Hfile))
    as (g1 & Hg1 & Hoff & Hsize).
  destruct (Z.ltb_spec (fs_read engine (GrubFile F) Data (clamped_Len g Len) (st w)).1 0)
    as [Hneg|Hnonneg].
  - eexists _, _, _, g1. split; [done|]. cbn. split_and!; [lia|done|done|lia].
  - erewrite run_bind by (by apply run_update_grub_file).
    eexists _, _, _, _. split; [done|]. cbn.
    rewrite lookup_insert_eq.
    pose proof (to_unsigned_le nbits _ Hnonneg).
    assert (to_UINT64 (file_offset g1 + (fs_read engine (GrubFile F) Data (clamped_Len g Len) (st w)).1)
            ≤ file_offset g1 + (fs_read engine (GrubFile F) Data (clamped_Len g Len) (st w)).1)
      by (apply to_unsigned_le; lia).
    unfold to_UINTN. split_and!; [lia|done|done|cbn; lia].
Qed.

(** C2 (amended): the remaining-byte count is the 64-bit unsigned difference
    size - offset reduced to a machine word, with no clamp at zero.  For
    every live file handle [GrubRead] calls the engine's read exactly once,
    with the smaller of the requested length and that count; when
    offset <= size this length is at most max(0, size - offset). *)
Theorem GrubRead_request_length w File F g Data Len :
  grub_fs_list (st w) ≠ NULL →
  file_at (st w) File F g →
  read_leaves_position →
  let L := Z.min Len (to_UINTN (to_UINT64 (file_size g - file_offset g))) in
  ∃ r w',
    GrubRead File Data Len w = Done r w' ∧
    trace w' = trace w ++ [EvEngine (call_read (GrubFile F) Data L) (grub_errno (st w))] ∧
    (file_offset g ≤ file_size g → L ≤ Z.max 0 (file_size g - file_offset g)).
Proof.
  intros Hp Hfile Hpos. cbv zeta.
  rewrite (GrubRead_run _ _ _ _ _ _ Hp Hfile). cbv zeta.
  rewrite <- clamped_Len_min.
  destruct (Hpos (GrubFile F) Data (clamped_Len g Len) (st w) g (proj2 Hfile))
    as (g1 & Hg1 & _ & _).
  assert (file_offset g ≤ file_size g →
          clamped_Len g Len ≤ Z.max 0 (file_size g - file_offset g)) as Hle.
  { intros H. pose proof (clamped_Len_le_remaining g Len H). lia. }
  destruct (_ <? 0).
  - by eexists _, _.
  - erewrite run_bind by (by apply run_update_grub_file).
    by eexists _, _.
Qed.

(** C4: when the engine's read returns a negative result, [GrubRead] reports
    an actual length of 0, returns the translation of the last-error value,
    and changes nothing itself: the state is the one the engine left, in
    which the FileSession's offset is what it was. *)
Theorem GrubRead_engine_failure w File F g Data Len :
  grub_fs_list (st w) ≠ NULL →
  file_at (st w) File F g →
  read_leaves_position →
  (fs_read engine (GrubFile F) Data (clamped_Len g Len) (st w)).1 < 0 →
  ∃ w' g',
    GrubRead File Data Len w = Done (GrubErrToEFIStatus (grub_errno (st w')), 0) w' ∧
    st w' = (fs_read engine (GrubFile F) Data (clamped_Len g Len) (st w)).2 ∧
    heap (st w') !! GrubFile F = Some (Obj_grub_file g') ∧
    file_offset g' = file_offset g.
Proof.
  intros Hp Hfile Hpos Hneg.
  rewrite (GrubRead_run _ _ _ _ _ _ Hp Hfile). cbv zeta.
  destruct (Hpos (GrubFile F) Data (clamped_Len g Len) (st w) g (proj2 Hfile))
    as (g1 & Hg1 & Hoff & _).
  destruct (Z.ltb_spec (fs_read engine (GrubFile F) Data (clamped_Len g Len) (st w)).1 0);
    [|lia].
  eexists (mk_World _ _), g1.
  split_and!; [reflexivity|reflexivity|exact Hg1|exact Hoff].
Qed.

(** C5 (amended): when the engine's read returns a non-negative count,
    [GrubRead] returns that same count as the actual length and adds it to
    the FileSession's offset in 64-bit unsigned arithmetic, so that the new
    offset is (offset + count) mod 2^64.  Whenever offset + count fits in 64
    bits the offset advances by exactly the count and does not decrease; a
    zero-byte success leaves the offset unchanged. *)
Theorem GrubRead_advances_offset w File F g Data Len :
  grub_fs_list (st w) ≠ NULL →
  file_at (st w) File F g →
  read_leaves_position →
  let len := (fs_read engine (GrubFile F) Data (clamped_Len g Len) (st w)).1 in
  0 ≤ len < 2 ^ nbits →
  ∃ w' g',
    GrubRead File Data Len w = Done (EFI_SUCCESS, len) w' ∧
    heap (st w') !! GrubFile F = Some (Obj_grub_file g') ∧
    file_offset g' = (file_offset g + len) mod 2 ^ 64 ∧
    (0 ≤ file_offset g → file_offset g + len < 2 ^ 64 →
       file_offset g' = file_offset g + len ∧ file_offset g ≤ file_offset g') ∧
    (len = 0 → 0 ≤ file_offset g < 2 ^ 64 → file_offset g' = file_offset g).
Proof.
  intros Hp Hfile Hpos len Hlen.
  rewrite (GrubRead_run _ _ _ _ _ _ Hp Hfile). cbv zeta. fold len.
  destruct (Hpos (GrubFile F) Data (clamped_Len g Len) (st w) g (proj2 Hfile))
    as (g1 & Hg1 & Hoff & _).
  destruct (Z.ltb_spec len 0); [lia|].
  erewrite run_bind by (by apply run_update_grub_file).
  unfold to_UINTN. rewrite (to_unsigned_small nbits len) by done.
  eexists _, _. split; [done|]. cbn. rewrite lookup_insert_eq.
  split; [done|]. cbn. unfold to_UINT64, to_unsigned. rewrite Hoff.
  split_and!.
  - done.
  - intros Hoff0 Hfit. rewrite Z.mod_small by lia. lia.
  - intros -> Hrange. rewrite Z.add_0_r. by apply Z.mod_small.
Qed.

(** *** The error-clear protocol of the sibling operations

    [GrubDir], [GrubOpen], [GrubClose] and [GrubLabel] enter the engine with
    [grub_errno] cleared. *)

Lemma GrubDir_clears_errno w File F g dirpath Hook HookData :
  grub_fs_list (st w) ≠ NULL →
  file_at (st w) File F g →
  ∃ Status w',
    GrubDir File dirpath Hook HookData w = Done Status w' ∧
    trace w' = trace w ++ [EvEngine (call_dir (file_device g) dirpath HookData) 0].
Proof.
  intros Hp [HF Hg]. unfold GrubDir. do 6 step. by eexists _, _.
Qed.

Lemma GrubOpen_clears_errno w File F g :
  grub_fs_list (st w) ≠ NULL →
  file_at (st w) File F g →
  ∃ Status w',
    GrubOpen File w = Done Status w' ∧
    trace w' = trace w ++ [EvEngine (call_open (GrubFile F) (path F)) 0].
Proof.
  intros Hp [HF Hg]. unfold GrubOpen. do 5 step. by eexists _, _.
Qed.

Lemma GrubClose_clears_errno w File F g :
  grub_fs_list (st w) ≠ NULL →
  file_at (st w) File F g →
  ∃ w',
    GrubClose File w = Done tt w' ∧
    trace w' = trace w ++ [EvEngine (call_close (GrubFile F)) 0].
Proof.
  intros Hp [HF Hg]. unfold GrubClose. do 5 step. by eexists.
Qed.

Lemma GrubLabel_clears_errno w File F g label :
  grub_fs_list (st w) ≠ NULL →
  file_at (st w) File F g →
  ∃ Status w',
    GrubLabel File label w = Done Status w' ∧
    trace w' = trace w ++ [EvEngine (call_label (file_device g)) 0].
Proof.
  intros Hp [HF Hg]. unfold GrubLabel. do 6 step. by eexists _, _.
Qed.

(** [GrubRead] enters the engine with [grub_errno] as it found it. *)
Lemma GrubRead_enters_with_errno w File F g Data Len :
  grub_fs_list (st w) ≠ NULL →
  file_at (st w) File F g →
  read_leaves_position →
  ∃ r w' c,
    GrubRead File Data Len w = Done r w' ∧
    trace w' = trace w ++ [EvEngine c (grub_errno (st w))].
Proof.
  intros Hp Hfile Hpos.
  rewrite (GrubRead_run _ _ _ _ _ _ Hp Hfile). cbv zeta.
  destruct (Hpos (GrubFile F) Data (clamped_Len g Len) (st w) g (proj2 Hfile))
    as (g1 & Hg1 & _ & _).
  destruct (_ <? 0).
  - by eexists _, _, _.
  - erewrite run_bind by (by apply run_update_grub_file).
    by eexists _, _, _.
Qed.

(** *** Accessors *)

(** C10: [GrubSetFileOffset] followed by [GrubGetFileOffset] returns the
    64-bit value that was set; the setter changes nothing but the offset of
    the FileSession (size, device and driver keep their values), and the two
    getters change nothing at all. *)
Theorem offset_accessors_round_trip w File F g v :
  file_at (st w) File F g →
  0 ≤ v < 2 ^ 64 →
  let g' := mk_grub_file (file_device g) (file_fs g) v (file_size g) (file_data g) in
  let w' := heap_update (GrubFile F) (Obj_grub_file g') w in
  GrubSetFileOffset File v w = Done tt w' ∧
  GrubGetFileOffset File w' = Done v w' ∧
  file_at (st w') File F g' ∧
  GrubGetFileSize File w = Done (to_UINT64 (file_size g)) w ∧
  GrubGetFileOffset File w = Done (to_UINT64 (file_offset g)) w.
Proof.
  intros [HF Hg] Hv g' w'.
  assert (File ≠ GrubFile F) as Hne by (intros E; rewrite <- E in Hg; congruence).
  assert (to_UINT64 v = v) as Hcast by (by apply to_unsigned_small).
  assert (file_at (st w') File F g') as [HF' Hg'].
  { split; [|apply heap_update_lookup].
    unfold w'. by rewrite heap_update_lookup_ne. }
  split_and!.
  - unfold GrubSetFileOffset. step.
    rewrite (run_update_grub_file _ _ _ _ Hg).
    unfold with_file_offset. by rewrite Hcast.
  - unfold GrubGetFileOffset. do 2 step. cbn. by rewrite Hcast.
  - done.
  - unfold GrubGetFileSize. by do 2 step.
  - unfold GrubGetFileOffset. by do 2 step.
Qed.

(** *** Probe *)

(** [GrubFSProbe] up to the answer of the root walk. *)
Lemma GrubFSProbe_run w This inst dev :
  heap (st w) !! This = Some (Obj_EFI_FS inst) →
  grub_fs_list (st w) ≠ NULL →
  heap (st w) !! GrubDevice inst = Some (Obj_grub_device dev) →
  device_disk dev ≠ NULL →
  let s1 := (root_walk (GrubDevice inst) (st w)).2 in
  let t1 := trace w ++ [EvEngine (call_dir (GrubDevice inst) "/" NULL) 0] in
  GrubFSProbe This w =
  if grub_errno s1 =? 0 then Done true (mk_World s1 t1)
  else if LogLevel s1 >=? FS_LOGLEVEL_INFO
       then Done false (mk_World (set_grub_errno 0 s1)
                          (t1 ++ [EvGrubPrintError (grub_errno s1)]))
       else Done false (mk_World s1 t1).
Proof.
  intros Hinst Hp Hdev Hdisk. cbv zeta. unfold GrubFSProbe.
  do 2 step.
  destruct (Z.eqb_spec (grub_fs_list (st w)) 0) as [|_]; [done|].
  erewrite run_bind; last first.
  { erewrite run_bind by eauto with run. apply run_ret. }
  destruct (Z.eqb_spec (device_disk dev) 0) as [|_]; [done|].
  do 3 step. cbn [st trace grub_errno set_grub_errno].
  fold (root_walk (GrubDevice inst) (st w)).
  step. cbn [st].
  destruct (grub_errno (root_walk (GrubDevice inst) (st w)).2 =? 0); cbn [negb]; [done|].
  step. cbn [st].
  destruct (LogLevel (root_walk (GrubDevice inst) (st w)).2 >=? FS_LOGLEVEL_INFO).
  - erewrite run_bind; last first.
    { unfold grub_print_error. do 2 step. apply run_modify. }
    done.
  - by step.
Qed.

(** C6 (amended): for a live instance, if the driver registry is empty or
    the disk of the instance's device is null, the probe logs and returns
    false without calling the engine; otherwise it walks the root directory
    once, entering the engine with the last-error indicator cleared, and
    returns true if and only if the indicator is still clear after the
    walk. *)
Theorem GrubFSProbe_correct w This inst :
  heap (st w) !! This = Some (Obj_EFI_FS inst) →
  let refused :=
    Done false (mk_World (st w)
      (trace w ++ [EvPrintError "GrubFSProbe: uninitialized variables"])) in
  (grub_fs_list (st w) = NULL → GrubFSProbe This w = refused) ∧
  (∀ dev,
     grub_fs_list (st w) ≠ NULL →
     heap (st w) !! GrubDevice inst = Some (Obj_grub_device dev) →
     (device_disk dev = NULL → GrubFSProbe This w = refused) ∧
     (device_disk dev ≠ NULL →
      ∃ w' log,
        GrubFSProbe This w =
          Done (grub_errno (root_walk (GrubDevice inst) (st w)).2 =? 0) w' ∧
        trace w' =
          trace w ++ EvEngine (call_dir (GrubDevice inst) "/" NULL) 0 :: log ∧
        ∀ c e, EvEngine c e ∉ log)).
Proof.
  intros Hinst. cbv zeta. split.
  - intros Hp. unfold GrubFSProbe. do 2 step. rewrite Hp.
    change (0 =? 0) with true. cbv iota. step. cbv iota. by step.
  - intros dev Hp Hdev. split.
    + intros Hdisk. unfold GrubFSProbe. do 2 step.
      destruct (Z.eqb_spec (grub_fs_list (st w)) 0) as [|_]; [done|].
      erewrite run_bind; last first.
      { erewrite run_bind by eauto with run. apply run_ret. }
      rewrite Hdisk. change (0 =? 0) with true. cbv iota. by step.
    + intros Hdisk. rewrite (GrubFSProbe_run _ _ _ _ Hinst Hp Hdev Hdisk). cbv zeta.
      destruct (_ =? 0).
      * eexists _, []. split_and!; [done|done|]. intros c e. apply not_elem_of_nil.
      * destruct (_ >=? _).
        -- eexists _, [_]. split_and!; [done|by rewrite <- app_assoc|].
           intros c e Hin. apply list_elem_of_singleton in Hin. discriminate.
        -- eexists _, []. split_and!; [done|done|]. intros c e. apply not_elem_of_nil.
Qed.

(** C7 (amended): whenever the probe's root walk leaves the last-error
    indicator set, the probe returns false; if the log level is at least
    [FS_LOGLEVEL_INFO] the logging step runs and consumes the error, so the
    indicator reads "no error" afterwards; below that level nothing is
    logged and the indicator keeps the error of the walk. *)
Theorem GrubFSProbe_error_and_logging w This inst dev :
  heap (st w) !! This = Some (Obj_EFI_FS inst) →
  grub_fs_list (st w) ≠ NULL →
  heap (st w) !! GrubDevice inst = Some (Obj_grub_device dev) →
  device_disk dev ≠ NULL →
  let s1 := (root_walk (GrubDevice inst) (st w)).2 in
  let t1 := trace w ++ [EvEngine (call_dir (GrubDevice inst) "/" NULL) 0] in
  grub_errno s1 ≠ 0 →
  ∃ w',
    GrubFSProbe This w = Done false w' ∧
    (FS_LOGLEVEL_INFO ≤ LogLevel s1 →
       grub_errno (st w') = 0 ∧
       trace w' = t1 ++ [EvGrubPrintError (grub_errno s1)]) ∧
    (LogLevel s1 < FS_LOGLEVEL_INFO →
       grub_errno (st w') = grub_errno s1 ∧ trace w' = t1).
Proof.
  intros Hinst Hp Hdev Hdisk s1 t1 Herr.
  rewrite (GrubFSProbe_run _ _ _ _ Hinst Hp Hdev Hdisk). cbv zeta. fold s1 t1.
  destruct (Z.eqb_spec (grub_errno s1) 0); [done|].
  destruct (Z.geb_spec (LogLevel s1) FS_LOGLEVEL_INFO).
  - eexists. split; [done|]. split; [done|lia].
  - eexists. split; [done|]. split; [lia|done].
Qed.

(** *** Allocation and roll-back *)

Lemma next_block_fresh (h : gmap Z object) :
  next_block h ≠ NULL ∧ h !! next_block h = None.
Proof.
  clear.
  pose proof (is_fresh (({[NULL]} : gset Z) ∪ dom h)) as Hfresh.
  fold (next_block h) in Hfresh.
  split.
  - intros E. apply Hfresh. rewrite E. set_solver.
  - apply not_elem_of_dom. set_solver.
Qed.

Lemma run_AllocateZeroPool_served zero w :
  pool_has_room (heap (st w)) = true →
  AllocateZeroPool zero w =
  Done (next_block (heap (st w))) (heap_update (next_block (heap (st w))) zero w).
Proof. intros H. unfold AllocateZeroPool. cbv zeta. by rewrite H. Qed.

Lemma run_AllocateZeroPool_refused zero w :
  pool_has_room (heap (st w)) = false →
  AllocateZeroPool zero w = Done NULL w.
Proof. intros H. unfold AllocateZeroPool. cbv zeta. by rewrite H. Qed.

Lemma run_FreePool a w :
  is_Some (heap (st w) !! a) →
  FreePool a w = Done tt (mk_World (set_heap (delete a (heap (st w))) (st w)) (trace w)).
Proof. intros [x H]. unfold FreePool. by rewrite H. Qed.

(** Releasing a block that was written and never shared restores the world
    in which it had not been allocated. *)
Lemma release_restores a o1 o2 w :
  heap (st w) !! a = None →
  mk_World
    (set_heap (delete a (heap (st (heap_update a o2 (heap_update a o1 w)))))
       (st (heap_update a o2 (heap_update a o1 w))))
    (trace (heap_update a o2 (heap_update a o1 w))) = w.
Proof.
  intros H. destruct w as [[e p l h] t]. cbn in H.
  unfold set_heap. cbn.
  by rewrite insert_insert_eq, delete_insert_id.
Qed.

(** C8: both allocation paths roll back on partial failure.  If the pool
    serves the wrapper of [GrubCreateFile] and refuses its FileSession, the
    wrapper is released, the status is out-of-resources and nothing is
    stored through [File]; if the pool serves the device of
    [grub_device_open] and refuses its disk, the device is freed and the
    answer is null, which [GrubDeviceInit] reports as out-of-resources.  In
    both cases the pool is left as it was found. *)
Theorem allocation_rolls_back w This :
  let h := heap (st w) in
  pool_has_room h = true →
  (pool_has_room (<[next_block h := Obj_EFI_GRUB_FILE zero_EFI_GRUB_FILE]> h) = false →
   GrubCreateFile This w = Done (EFI_OUT_OF_RESOURCES, None) w) ∧
  (pool_has_room (<[next_block h := Obj_grub_device zero_grub_device]> h) = false →
   grub_device_open This w = Done NULL w ∧
   ∀ inst, h !! This = Some (Obj_EFI_FS inst) →
     GrubDeviceInit This w =
     Done EFI_OUT_OF_RESOURCES
       (heap_update This (Obj_EFI_FS (with_GrubDevice NULL inst)) w)).
Proof.
  intros h Hroom.
  destruct (next_block_fresh h) as [Hnonnull Hfree].
  split.
  - intros Hfull. unfold GrubCreateFile.
    rewrite (run_bind _ _ _ _ _ (run_AllocateZeroPool_served _ _ Hroom)).
    fold h. destruct (Z.eqb_spec (next_block h) 0) as [|_]; [done|].
    erewrite run_bind;
      last (apply run_AllocateZeroPool_refused; exact Hfull).
    erewrite run_bind;
      last (apply run_update_EFI_GRUB_FILE, heap_update_lookup).
    erewrite run_bind;
      last (apply run_load_EFI_GRUB_FILE, heap_update_lookup).
    change (GrubFile (with_GrubFile 0 zero_EFI_GRUB_FILE) =? 0) with true. cbv iota.
    erewrite run_bind;
      last (apply run_FreePool; rewrite heap_update_lookup; eauto).
    rewrite run_ret. f_equal. by apply release_restores.
  - intros Hfull.
    assert (grub_device_open This w = Done 0 w) as Hopen.
    { unfold grub_device_open, grub_zalloc, grub_free.
      rewrite (run_bind _ _ _ _ _ (run_AllocateZeroPool_served _ _ Hroom)).
      fold h. destruct (Z.eqb_spec (next_block h) 0) as [|_]; [done|].
      erewrite run_bind;
      last (apply run_AllocateZeroPool_refused; exact Hfull).
      erewrite run_bind;
        last (apply run_store; rewrite heap_update_lookup; eauto).
      erewrite run_bind;
        last (apply run_load_grub_device, heap_update_lookup).
      change (device_disk (mk_grub_device 0) =? 0) with true. cbv iota.
      erewrite run_bind;
        last (apply run_FreePool; rewrite heap_update_lookup; eauto).
      rewrite run_ret. f_equal. by apply release_restores. }
    split; [done|].
    intros inst Hinst. unfold GrubDeviceInit.
    rewrite (run_bind _ _ _ _ _ Hopen).
    erewrite run_bind; last (by apply run_update_EFI_FS).
    erewrite run_bind;
      last (apply run_load_EFI_FS, heap_update_lookup).
    done.
Qed.

(** *** Block-read shim *)

(** C9: for every sector index and in-sector offset, when the filesystem
    back-reference and both transport interfaces are non-null the shim
    issues exactly one read to the host block transport, at the byte offset
    sector * GRUB_DISK_SECTOR_SIZE + offset computed in 64 bits (which is
    that very sum whenever it fits), with the caller's length and buffer;
    it answers the read-error code if that read fails and 0 otherwise.  If
    the back-reference or either interface is null it answers the read-error
    code and issues no read. *)
Theorem grub_disk_read_shim w disk d sector offset size buf :
  heap (st w) !! disk = Some (Obj_grub_disk d) →
  (disk_data d = NULL →
   grub_disk_read disk sector offset size buf w = Done GRUB_ERR_READ_ERROR w) ∧
  (∀ inst,
     disk_data d ≠ NULL →
     heap (st w) !! disk_data d = Some (Obj_EFI_FS inst) →
     match DiskIo inst, BlockIo inst with
     | Some dio, Some bio =>
         let byte_offset := to_UINT64 (sector * GRUB_DISK_SECTOR_SIZE + offset) in
         let Status := ReadDisk_status dio (MediaId bio) byte_offset size buf (st w) in
         let issued := EvReadDisk dio (MediaId bio) byte_offset size buf in
         (0 ≤ sector * GRUB_DISK_SECTOR_SIZE + offset < 2 ^ 64 →
          byte_offset = sector * GRUB_DISK_SECTOR_SIZE + offset) ∧
         grub_disk_read disk sector offset size buf w =
         if EFI_ERROR Status then
           Done GRUB_ERR_READ_ERROR
             (mk_World (st w)
                (trace w ++ [issued; EvPrintStatusError Status
                                       "Could not read block at address %08x"]))
         else Done 0 (mk_World (st w) (trace w ++ [issued]))
     | _, _ =>
         grub_disk_read disk sector offset size buf w = Done GRUB_ERR_READ_ERROR w
     end).
Proof.
  intros Hdisk. split.
  - intros Hnull. unfold grub_disk_read. step. cbv zeta. by rewrite Hnull.
  - intros inst Hnonnull Hinst.
    assert (grub_disk_read disk sector offset size buf w =
              match DiskIo inst, BlockIo inst with
              | Some dio, Some bio =>
                  (Status ← ReadDisk dio (MediaId bio)
                     (to_UINT64 (sector * GRUB_DISK_SECTOR_SIZE + offset)) size buf;
                   if EFI_ERROR Status then
                     PrintStatusError Status "Could not read block at address %08x";;
                     mret GRUB_ERR_READ_ERROR
                   else mret 0) w
              | _, _ => Done GRUB_ERR_READ_ERROR w
              end) as Hrun.
    { unfold grub_disk_read. step. cbv zeta.
      destruct (Z.eqb_spec (disk_data d) 0) as [|_]; [done|].
      step. by destruct (DiskIo inst), (BlockIo inst). }
    destruct (DiskIo inst) as [dio|], (BlockIo inst) as [bio|]; try done.
    cbv zeta. split.
    + intros Hfit. by apply to_unsigned_small.
    + rewrite Hrun. unfold ReadDisk.
      erewrite run_bind; last first.
      { erewrite run_bind by apply run_emit. apply run_gets. }
      cbn [st trace].
      destruct (EFI_ERROR _); [|done].
      step. cbn [st trace]. by rewrite <- app_assoc.
Qed.

(** ** Further properties of the file *)

(** *** Worlds under update and release *)

Lemma live_ne (h : gmap Z object) a b o :
  h !! a = None → h !! b = Some o → a ≠ b.
Proof. intros Ha Hb ->. congruence. Qed.

Lemma heap_update_twice a o1 o2 w :
  heap_update a o2 (heap_update a o1 w) = heap_update a o2 w.
Proof.
  unfold heap_update, set_heap. cbn. by rewrite insert_insert_eq.
Qed.

Lemma heap_update_comm a b oa ob w :
  a ≠ b →
  heap_update a oa (heap_update b ob w) = heap_update b ob (heap_update a oa w).
Proof.
  intros H. unfold heap_update, set_heap. cbn.
  by rewrite (insert_insert_ne (heap (st w)) a b) by done.
Qed.

Lemma heap_release_update a o w :
  heap (st w) !! a = None → heap_release a (heap_update a o w) = w.
Proof.
  intros H. destruct w as [[e p l h] t]. cbn in H.
  unfold heap_release, heap_update, set_heap. cbn.
  by rewrite delete_insert_id.
Qed.

Lemma heap_release_update_ne a b o w :
  a ≠ b →
  heap_release a (heap_update b o w) = heap_update b o (heap_release a w).
Proof.
  intros H. unfold heap_release, heap_update, set_heap. cbn.
  by rewrite delete_insert_ne.
Qed.

Lemma run_FreePool_release a w :
  is_Some (heap (st w) !! a) → FreePool a w = Done tt (heap_release a w).
Proof. apply run_FreePool. Qed.

(** The two blocks of an opened device are distinct, not null, and were not
    live before. *)
Lemma opened_device_fresh name w :
  let '(device, disk, _) := opened_device name w in
  device ≠ NULL ∧ disk ≠ NULL ∧ device ≠ disk ∧
  heap (st w) !! device = None ∧ heap (st w) !! disk = None.
Proof.
  unfold opened_device. cbv zeta.
  set (device := next_block (heap (st w))).
  set (w1 := heap_update device (Obj_grub_device zero_grub_device) w).
  destruct (next_block_fresh (heap (st w))) as [Hdev0 Hdev]. fold device in Hdev0, Hdev.
  destruct (next_block_fresh (heap (st w1))) as [Hdisk0 Hdisk].
  assert (device ≠ next_block (heap (st w1))) as Hne.
  { intros E. rewrite <- E in Hdisk. unfold w1 in Hdisk.
    by rewrite heap_update_lookup in Hdisk. }
  split_and!; [done|done|done|done|].
  unfold w1 in Hdisk. by rewrite heap_update_lookup_ne in Hdisk.
Qed.

(** [grub_device_open] when the pool serves both of its requests. *)
Lemma grub_device_open_run name w :
  pool_has_room (heap (st w)) = true →
  pool_has_room
    (<[next_block (heap (st w)) := Obj_grub_device zero_grub_device]> (heap (st w))) = true →
  grub_device_open name w =
  Done (opened_device name w).1.1 (opened_device name w).2.
Proof.
  intros Hroom Hroom1.
  pose proof (opened_device_fresh name w) as Hfresh.
  unfold opened_device in *. cbv zeta in *. cbn [fst snd].
  set (device := next_block (heap (st w))) in *.
  set (w1 := heap_update device (Obj_grub_device zero_grub_device) w) in *.
  set (disk := next_block (heap (st w1))) in *.
  destruct Hfresh as (Hdev0 & Hdisk0 & Hne & Hdev & Hdisk).
  unfold grub_device_open, grub_zalloc.
  rewrite (run_bind _ _ _ _ _ (run_AllocateZeroPool_served _ _ Hroom)).
  fold device w1. destruct (Z.eqb_spec device 0) as [|_]; [done|].
  erewrite run_bind; last (apply run_AllocateZeroPool_served; exact Hroom1).
  fold disk.
  erewrite run_bind; last first.
  { apply run_store. rewrite heap_update_lookup_ne by done.
    unfold w1. rewrite heap_update_lookup. eauto. }
  erewrite run_bind; last (apply run_load_grub_device, heap_update_lookup).
  cbn [device_disk]. destruct (Z.eqb_spec disk 0) as [|_]; [done|].
  erewrite run_bind; last first.
  { apply run_store. rewrite heap_update_lookup_ne by done.
    rewrite heap_update_lookup. eauto. }
  rewrite run_ret. f_equal.
  rewrite (heap_update_comm device disk) by done.
  unfold w1. by rewrite !heap_update_twice.
Qed.

(** X1: when the pool serves both requests, [grub_device_open] answers a
    device that is not null and was not live before; the device points to a
    disk of its own, equally new, whose private data is the name it was
    given, verbatim; no other block, global or trace entry changes. *)
Theorem grub_device_open_served name w :
  pool_has_room (heap (st w)) = true →
  pool_has_room
    (<[next_block (heap (st w)) := Obj_grub_device zero_grub_device]> (heap (st w))) = true →
  ∃ device disk w',
    grub_device_open name w = Done device w' ∧
    device ≠ NULL ∧ disk ≠ NULL ∧ device ≠ disk ∧
    heap (st w) !! device = None ∧ heap (st w) !! disk = None ∧
    heap (st w') !! device = Some (Obj_grub_device (mk_grub_device disk)) ∧
    heap (st w') !! disk = Some (Obj_grub_disk (mk_grub_disk name)) ∧
    (∀ a, a ≠ device → a ≠ disk → heap (st w') !! a = heap (st w) !! a) ∧
    grub_errno (st w') = grub_errno (st w) ∧
    grub_fs_list (st w') = grub_fs_list (st w) ∧
    trace w' = trace w.
Proof.
  intros Hroom Hroom1.
  rewrite (grub_device_open_run name w Hroom Hroom1).
  pose proof (opened_device_fresh name w) as Hfresh.
  destruct (opened_device name w) as [[device disk] w'] eqn:E.
  unfold opened_device in E. cbv zeta in E. injection E as <- <- <-.
  destruct Hfresh as (Hdev0 & Hdisk0 & Hne & Hdev & Hdisk).
  eexists _, _, _. split; [reflexivity|]. cbn [fst snd].
  split_and!; try done.
  - rewrite heap_update_lookup_ne by done. apply heap_update_lookup.
  - apply heap_update_lookup.
  - intros a Ha1 Ha2. by rewrite !heap_update_lookup_ne.
Qed.

(** X2: closing a device right after it was opened releases the disk and
    the device and answers 0; the world is exactly the one before the
    open. *)
Theorem grub_device_open_close w name :
  pool_has_room (heap (st w)) = true →
  pool_has_room
    (<[next_block (heap (st w)) := Obj_grub_device zero_grub_device]> (heap (st w))) = true →
  ∃ device w',
    grub_device_open name w = Done device w' ∧
    grub_device_close device w' = Done 0 w.
Proof.
  intros Hroom Hroom1.
  rewrite (grub_device_open_run name w Hroom Hroom1).
  pose proof (opened_device_fresh name w) as Hfresh.
  destruct (opened_device name w) as [[device disk] w'] eqn:E.
  unfold opened_device in E. cbv zeta in E. injection E as <- <- <-.
  destruct Hfresh as (Hdev0 & Hdisk0 & Hne & Hdev & Hdisk).
  eexists _, _. split; [reflexivity|]. cbn [fst snd].
  unfold grub_device_close, grub_free.
  erewrite run_bind; last first.
  { apply run_load_grub_device. rewrite heap_update_lookup_ne by done.
    apply heap_update_lookup. }
  cbn [device_disk].
  erewrite run_bind; last first.
  { apply run_FreePool_release. rewrite heap_update_lookup. eauto. }
  rewrite heap_release_update; last by rewrite heap_update_lookup_ne.
  erewrite run_bind; last first.
  { apply run_FreePool_release. rewrite heap_update_lookup. eauto. }
  by rewrite heap_release_update.
Qed.

(** [grub_disk_read] when the back-reference and both interfaces are there. *)
Lemma grub_disk_read_run w disk d inst dio bio sector offset size buf :
  heap (st w) !! disk = Some (Obj_grub_disk d) →
  disk_data d ≠ NULL →
  heap (st w) !! disk_data d = Some (Obj_EFI_FS inst) →
  DiskIo inst = Some dio →
  BlockIo inst = Some bio →
  let byte_offset := to_UINT64 (sector * GRUB_DISK_SECTOR_SIZE + offset) in
  let Status := ReadDisk_status dio (MediaId bio) byte_offset size buf (st w) in
  let issued := EvReadDisk dio (MediaId bio) byte_offset size buf in
  grub_disk_read disk sector offset size buf w =
  if EFI_ERROR Status then
    Done GRUB_ERR_READ_ERROR
      (mk_World (st w)
         (trace w ++ [issued; EvPrintStatusError Status
                                "Could not read block at address %08x"]))
  else Done 0 (mk_World (st w) (trace w ++ [issued])).
Proof.
  intros Hdisk Hnonnull Hinst Hdio Hbio. cbv zeta.
  unfold grub_disk_read. step. cbv zeta.
  destruct (Z.eqb_spec (disk_data d) 0) as [|_]; [done|].
  step. rewrite Hdio, Hbio. unfold ReadDisk.
  erewrite run_bind; last first.
  { erewrite run_bind by apply run_emit. apply run_gets. }
  cbn [st trace].
  destruct (EFI_ERROR _); [|done].
  step. cbn [st trace]. by rewrite <- app_assoc.
Qed.

(** [GrubDeviceInit] when the pool serves the device and its disk. *)
Lemma GrubDeviceInit_run w This inst :
  pool_has_room (heap (st w)) = true →
  pool_has_room
    (<[next_block (heap (st w)) := Obj_grub_device zero_grub_device]> (heap (st w))) = true →
  heap (st w) !! This = Some (Obj_EFI_FS inst) →
  GrubDeviceInit This w =
  Done EFI_SUCCESS
    (heap_update This
       (Obj_EFI_FS (with_GrubDevice (opened_device This w).1.1 inst))
       (opened_device This w).2).
Proof.
  intros Hroom Hroom1 Hinst.
  unfold GrubDeviceInit.
  rewrite (run_bind _ _ _ _ _ (grub_device_open_run This w Hroom Hroom1)).
  pose proof (opened_device_fresh This w) as Hfresh.
  destruct (opened_device This w) as [[device disk] w'] eqn:E.
  unfold opened_device in E. cbv zeta in E. injection E as <- <- <-.
  destruct Hfresh as (Hdev0 & Hdisk0 & Hne & Hdev & Hdisk).
  cbn [fst snd].
  assert (next_block (heap (st w)) ≠ This) as HneT by exact (live_ne _ _ _ _ Hdev Hinst).
  set (device := next_block (heap (st w))) in *.
  set (disk := next_block
                 (heap (st (heap_update device (Obj_grub_device zero_grub_device) w)))) in *.
  assert (disk ≠ This) as HneD by exact (live_ne _ _ _ _ Hdisk Hinst).
  erewrite run_bind; last first.
  { apply run_update_EFI_FS. by rewrite !heap_update_lookup_ne. }
  erewrite run_bind; last (apply run_load_EFI_FS, heap_update_lookup).
  cbn [GrubDevice with_GrubDevice].
  by destruct (Z.eqb_spec device 0).
Qed.

(** X3: after a successful [GrubDeviceInit] the instance holds a device
    whose disk refers back to the instance, so that a block read on that
    disk goes to the instance's own transport: one read through its
    [DiskIo], with the [MediaId] of its [BlockIo]. *)
Theorem GrubDeviceInit_routes_reads w This inst dio bio sector offset size buf :
  This ≠ NULL →
  pool_has_room (heap (st w)) = true →
  pool_has_room
    (<[next_block (heap (st w)) := Obj_grub_device zero_grub_device]> (heap (st w))) = true →
  heap (st w) !! This = Some (Obj_EFI_FS inst) →
  DiskIo inst = Some dio →
  BlockIo inst = Some bio →
  ∃ device disk w1,
    GrubDeviceInit This w = Done EFI_SUCCESS w1 ∧
    heap (st w1) !! This = Some (Obj_EFI_FS (with_GrubDevice device inst)) ∧
    heap (st w1) !! device = Some (Obj_grub_device (mk_grub_device disk)) ∧
    heap (st w1) !! disk = Some (Obj_grub_disk (mk_grub_disk This)) ∧
    let byte_offset := to_UINT64 (sector * GRUB_DISK_SECTOR_SIZE + offset) in
    let Status := ReadDisk_status dio (MediaId bio) byte_offset size buf (st w1) in
    let issued := EvReadDisk dio (MediaId bio) byte_offset size buf in
    grub_disk_read disk sector offset size buf w1 =
    if EFI_ERROR Status then
      Done GRUB_ERR_READ_ERROR
        (mk_World (st w1)
           (trace w ++ [issued; EvPrintStatusError Status
                                  "Could not read block at address %08x"]))
    else Done 0 (mk_World (st w1) (trace w ++ [issued])).
Proof.
  intros Hthis Hroom Hroom1 Hinst Hdio Hbio.
  rewrite (GrubDeviceInit_run w This inst Hroom Hroom1 Hinst).
  pose proof (opened_device_fresh This w) as Hfresh.
  destruct (opened_device This w) as [[device disk] w'] eqn:E.
  unfold opened_device in E. cbv zeta in E. injection E as <- <- <-.
  destruct Hfresh as (Hdev0 & Hdisk0 & Hne & Hdev & Hdisk).
  cbn [fst snd].
  set (device := next_block (heap (st w))) in *.
  set (disk := next_block
                 (heap (st (heap_update device (Obj_grub_device zero_grub_device) w)))) in *.
  assert (This ≠ device) as HneT by exact (not_eq_sym (live_ne _ _ _ _ Hdev Hinst)).
  assert (This ≠ disk) as HneD by exact (not_eq_sym (live_ne _ _ _ _ Hdisk Hinst)).
  set (w1 := heap_update This _ _).
  assert (heap (st w1) !! This = Some (Obj_EFI_FS (with_GrubDevice device inst))) as H1
    by apply heap_update_lookup.
  assert (heap (st w1) !! disk = Some (Obj_grub_disk (mk_grub_disk This))) as H3.
  { unfold w1. rewrite heap_update_lookup_ne by done. apply heap_update_lookup. }
  exists device, disk, w1. split_and!; [done|done| |done|].
  - unfold w1. rewrite !heap_update_lookup_ne by done. apply heap_update_lookup.
  - apply (grub_disk_read_run w1 disk (mk_grub_disk This)
             (with_GrubDevice device inst) dio bio); done.
Qed.

(** X4: [GrubDeviceExit] after a successful [GrubDeviceInit] releases the
    device and its disk and answers [EFI_SUCCESS], but it does not reset the
    instance's [GrubDevice]: the field keeps the address of the released
    device, where nothing is live any more. *)
Theorem GrubDeviceInit_Exit w This inst :
  pool_has_room (heap (st w)) = true →
  pool_has_room
    (<[next_block (heap (st w)) := Obj_grub_device zero_grub_device]> (heap (st w))) = true →
  heap (st w) !! This = Some (Obj_EFI_FS inst) →
  ∃ device w1 w2,
    GrubDeviceInit This w = Done EFI_SUCCESS w1 ∧
    GrubDeviceExit This w1 = Done EFI_SUCCESS w2 ∧
    w2 = heap_update This (Obj_EFI_FS (with_GrubDevice device inst)) w ∧
    device ≠ NULL ∧
    heap (st w2) !! device = None.
Proof.
  intros Hroom Hroom1 Hinst.
  rewrite (GrubDeviceInit_run w This inst Hroom Hroom1 Hinst).
  pose proof (opened_device_fresh This w) as Hfresh.
  destruct (opened_device This w) as [[device disk] w'] eqn:E.
  unfold opened_device in E. cbv zeta in E. injection E as <- <- <-.
  destruct Hfresh as (Hdev0 & Hdisk0 & Hne & Hdev & Hdisk).
  cbn [fst snd].
  set (device := next_block (heap (st w))) in *.
  set (disk := next_block
                 (heap (st (heap_update device (Obj_grub_device zero_grub_device) w)))) in *.
  assert (This ≠ device) as HneT by exact (not_eq_sym (live_ne _ _ _ _ Hdev Hinst)).
  assert (This ≠ disk) as HneD by exact (not_eq_sym (live_ne _ _ _ _ Hdisk Hinst)).
  eexists device, _, _. split; [reflexivity|].
  split_and!; [|reflexivity|done|by rewrite heap_update_lookup_ne].
  unfold GrubDeviceExit, grub_device_close, grub_free.
  erewrite run_bind; last (apply run_load_EFI_FS, heap_update_lookup).
  cbn [GrubDevice with_GrubDevice].
  erewrite run_bind; last first.
  { erewrite run_bind; last first.
    { apply run_load_grub_device. rewrite !heap_update_lookup_ne by done.
      apply heap_update_lookup. }
    cbn [device_disk].
    erewrite run_bind; last first.
    { apply run_FreePool_release. rewrite heap_update_lookup_ne by done.
      rewrite heap_update_lookup. eauto. }
    erewrite run_bind; last first.
    { apply run_FreePool_release.
      rewrite heap_release_update_ne by done.
      rewrite heap_update_lookup_ne by done.
      rewrite heap_release_update by (by rewrite heap_update_lookup_ne).
      rewrite heap_update_lookup. eauto. }
    apply run_ret. }
  rewrite run_ret. f_equal.
  rewrite (heap_release_update_ne disk This) by done.
  rewrite heap_release_update by (by rewrite heap_update_lookup_ne).
  rewrite (heap_release_update_ne device This) by done.
  by rewrite heap_release_update.
Qed.

(** *** File lifecycle *)

Ltac heap_lookup :=
  repeat first [ rewrite heap_update_lookup
               | rewrite heap_update_lookup_ne by done ]; eauto.

Lemma created_file_fresh This inst root w :
  let '(NewFile, f, _) := created_file This inst root w in
  NewFile ≠ NULL ∧ f ≠ NULL ∧ NewFile ≠ f ∧
  heap (st w) !! NewFile = None ∧ heap (st w) !! f = None.
Proof.
  unfold created_file. cbv zeta.
  set (NewFile := next_block (heap (st w))).
  set (w1 := heap_update NewFile (Obj_EFI_GRUB_FILE zero_EFI_GRUB_FILE) w).
  destruct (next_block_fresh (heap (st w))) as [Hnew0 Hnew]. fold NewFile in Hnew0, Hnew.
  destruct (next_block_fresh (heap (st w1))) as [Hf0 Hf].
  assert (NewFile ≠ next_block (heap (st w1))) as Hne.
  { intros E. rewrite <- E in Hf. unfold w1 in Hf.
    by rewrite heap_update_lookup in Hf. }
  split_and!; [done|done|done|done|].
  unfold w1 in Hf. by rewrite heap_update_lookup_ne in Hf.
Qed.

(** [GrubCreateFile] when the pool serves both of its requests. *)
Lemma GrubCreateFile_run w This inst root :
  pool_has_room (heap (st w)) = true →
  pool_has_room
    (<[next_block (heap (st w)) := Obj_EFI_GRUB_FILE zero_EFI_GRUB_FILE]> (heap (st w))) = true →
  heap (st w) !! This = Some (Obj_EFI_FS inst) →
  heap (st w) !! RootFile inst = Some (Obj_EFI_GRUB_FILE root) →
  GrubCreateFile This w =
  Done (EFI_SUCCESS, Some (created_file This inst root w).1.1)
    (created_file This inst root w).2.
Proof.
  intros Hroom Hroom1 Hinst Hroot.
  pose proof (created_file_fresh This inst root w) as Hfresh.
  unfold created_file in *. cbv zeta in *. cbn [fst snd].
  set (NewFile := next_block (heap (st w))) in *.
  set (w1 := heap_update NewFile (Obj_EFI_GRUB_FILE zero_EFI_GRUB_FILE) w) in *.
  set (f := next_block (heap (st w1))) in *.
  destruct Hfresh as (Hnew0 & Hf0 & Hne & Hnew & Hf).
  pose proof (live_ne _ _ _ _ Hnew Hinst) as HnT.
  pose proof (live_ne _ _ _ _ Hf Hinst) as HfT.
  pose proof (live_ne _ _ _ _ Hnew Hroot) as HnR.
  pose proof (live_ne _ _ _ _ Hf Hroot) as HfR.
  unfold GrubCreateFile.
  rewrite (run_bind _ _ _ _ _ (run_AllocateZeroPool_served _ _ Hroom)).
  fold NewFile w1. destruct (Z.eqb_spec NewFile 0) as [|_]; [done|].
  erewrite run_bind; last (apply run_AllocateZeroPool_served; exact Hroom1).
  fold f.
  erewrite run_bind; last first.
  { apply run_update_EFI_GRUB_FILE. unfold w1. heap_lookup. }
  erewrite run_bind; last (apply run_load_EFI_GRUB_FILE; heap_lookup).
  cbn [GrubFile with_GrubFile]. destruct (Z.eqb_spec f 0) as [|_]; [done|].
  erewrite run_bind; last first.
  { apply run_update_EFI_GRUB_FILE. heap_lookup. }
  erewrite run_bind; last first.
  { apply run_load_EFI_FS. unfold w1. heap_lookup. }
  erewrite run_bind; last first.
  { apply run_load_EFI_GRUB_FILE. unfold w1. heap_lookup. }
  erewrite run_bind; last first.
  { apply run_update_EFI_GRUB_FILE. heap_lookup. }
  erewrite run_bind; last (apply run_load_EFI_GRUB_FILE; heap_lookup).
  cbv zeta. cbn [GrubFile with_GrubFile with_FileSystem with_EfiFile].
  erewrite run_bind; last first.
  { apply run_load_EFI_FS. unfold w1. heap_lookup. }
  erewrite run_bind; last first.
  { apply run_update_grub_file. unfold w1. heap_lookup. }
  erewrite run_bind; last apply run_gets.
  erewrite run_bind; last first.
  { apply run_update_grub_file. heap_lookup. }
  rewrite run_ret. f_equal.
  rewrite !heap_update_twice.
  rewrite (heap_update_comm NewFile f) by done.
  unfold w1. by rewrite !heap_update_twice.
Qed.

(** X5: when the pool serves both requests and the instance and its root
    file are live, [GrubCreateFile] answers [EFI_SUCCESS] and stores a new,
    non-null handle.  The wrapper is bound to the instance, carries the
    root file's dispatch surface and no path; its FileSession is bound to
    the instance's device and to whatever [grub_fs_list] holds (the registry
    is not checked), and starts with size 0 and offset 0, as the two getters
    report.  No other block changes. *)
Theorem GrubCreateFile_served w This inst root :
  pool_has_room (heap (st w)) = true →
  pool_has_room
    (<[next_block (heap (st w)) := Obj_EFI_GRUB_FILE zero_EFI_GRUB_FILE]> (heap (st w))) = true →
  heap (st w) !! This = Some (Obj_EFI_FS inst) →
  heap (st w) !! RootFile inst = Some (Obj_EFI_GRUB_FILE root) →
  ∃ NewFile f w',
    GrubCreateFile This w = Done (EFI_SUCCESS, Some NewFile) w' ∧
    NewFile ≠ NULL ∧ f ≠ NULL ∧
    heap (st w) !! NewFile = None ∧ heap (st w) !! f = None ∧
    file_at (st w') NewFile
      (mk_EFI_GRUB_FILE (EfiFile root) "" f This)
      (mk_grub_file (GrubDevice inst) (grub_fs_list (st w)) 0 0 NULL) ∧
    (∀ a, a ≠ NewFile → a ≠ f → heap (st w') !! a = heap (st w) !! a) ∧
    GrubGetFileSize NewFile w' = Done 0 w' ∧
    GrubGetFileOffset NewFile w' = Done 0 w'.
Proof.
  intros Hroom Hroom1 Hinst Hroot.
  rewrite (GrubCreateFile_run w This inst root Hroom Hroom1 Hinst Hroot).
  pose proof (created_file_fresh This inst root w) as Hfresh.
  unfold created_file in *. cbv zeta in *. cbn [fst snd].
  set (NewFile := next_block (heap (st w))) in *.
  set (f := next_block
              (heap (st (heap_update NewFile (Obj_EFI_GRUB_FILE zero_EFI_GRUB_FILE) w)))) in *.
  destruct Hfresh as (Hnew0 & Hf0 & Hne & Hnew & Hf).
  set (w' := heap_update f _ _).
  assert (file_at (st w') NewFile
            (mk_EFI_GRUB_FILE (EfiFile root) "" f This)
            (mk_grub_file (GrubDevice inst) (grub_fs_list (st w)) 0 0 NULL))
    as [HF Hg].
  { split; unfold w'; heap_lookup. }
  exists NewFile, f, w'. split_and!; try done.
  - intros a Ha1 Ha2. unfold w'. by rewrite !heap_update_lookup_ne.
  - unfold GrubGetFileSize. by do 2 step.
  - unfold GrubGetFileOffset. by do 2 step.
Qed.

(** X6: destroying a file right after it was created releases its
    FileSession and its wrapper; the world is exactly the one before the
    creation. *)
Theorem GrubCreateFile_Destroy w This inst root :
  pool_has_room (heap (st w)) = true →
  pool_has_room
    (<[next_block (heap (st w)) := Obj_EFI_GRUB_FILE zero_EFI_GRUB_FILE]> (heap (st w))) = true →
  heap (st w) !! This = Some (Obj_EFI_FS inst) →
  heap (st w) !! RootFile inst = Some (Obj_EFI_GRUB_FILE root) →
  ∃ NewFile w',
    GrubCreateFile This w = Done (EFI_SUCCESS, Some NewFile) w' ∧
    GrubDestroyFile NewFile w' = Done tt w.
Proof.
  intros Hroom Hroom1 Hinst Hroot.
  rewrite (GrubCreateFile_run w This inst root Hroom Hroom1 Hinst Hroot).
  pose proof (created_file_fresh This inst root w) as Hfresh.
  unfold created_file in *. cbv zeta in *. cbn [fst snd].
  set (NewFile := next_block (heap (st w))) in *.
  set (f := next_block
              (heap (st (heap_update NewFile (Obj_EFI_GRUB_FILE zero_EFI_GRUB_FILE) w)))) in *.
  destruct Hfresh as (Hnew0 & Hf0 & Hne & Hnew & Hf).
  eexists _, _. split; [reflexivity|].
  unfold GrubDestroyFile.
  erewrite run_bind; last (apply run_load_EFI_GRUB_FILE; heap_lookup).
  cbn [GrubFile].
  erewrite run_bind; last first.
  { apply run_FreePool_release. rewrite heap_update_lookup. eauto. }
  rewrite heap_release_update; last by rewrite heap_update_lookup_ne.
  rewrite run_FreePool_release; last (rewrite heap_update_lookup; eauto).
  by rewrite heap_release_update.
Qed.

(** X7: when the pool refuses the very first request, [GrubCreateFile]
    answers out-of-resources without storing a handle and [grub_device_open]
    answers null; neither looks at its argument, and the world is left
    untouched. *)
Theorem first_allocation_refused w This :
  pool_has_room (heap (st w)) = false →
  GrubCreateFile This w = Done (EFI_OUT_OF_RESOURCES, None) w ∧
  grub_device_open This w = Done NULL w.
Proof.
  intros Hfull. split.
  - unfold GrubCreateFile.
    by rewrite (run_bind _ _ _ _ _ (run_AllocateZeroPool_refused _ _ Hfull)).
  - unfold grub_device_open, grub_zalloc.
    by rewrite (run_bind _ _ _ _ _ (run_AllocateZeroPool_refused _ _ Hfull)).
Qed.

(** *** The bridged engine calls *)

(** X8: [GrubDir], [GrubOpen] and [GrubLabel] run the engine from the
    caller's state with [grub_errno] cleared and answer the translation of
    the engine's return code, whatever the engine leaves in [grub_errno];
    they add nothing of their own to the state the engine leaves.  [GrubDir]
    walks the device of the FileSession with the path it is given;
    [GrubOpen] passes the path of the wrapper. *)
Theorem bridge_translates_return_code w File F g dirpath Hook HookData label :
  grub_fs_list (st w) ≠ NULL →
  file_at (st w) File F g →
  let s0 := set_grub_errno 0 (st w) in
  let entered c := trace w ++ [EvEngine c 0] in
  let dir := fs_dir engine (file_device g) dirpath Hook HookData s0 in
  let open := fs_open engine (GrubFile F) (path F) s0 in
  let lbl := fs_label engine (file_device g) label s0 in
  GrubDir File dirpath Hook HookData w =
    Done (GrubErrToEFIStatus dir.1)
      (mk_World dir.2 (entered (call_dir (file_device g) dirpath HookData))) ∧
  GrubOpen File w =
    Done (GrubErrToEFIStatus open.1)
      (mk_World open.2 (entered (call_open (GrubFile F) (path F)))) ∧
  GrubLabel File label w =
    Done (GrubErrToEFIStatus lbl.1)
      (mk_World lbl.2 (entered (call_label (file_device g)))).
Proof.
  intros Hp [HF Hg]. cbv zeta. split_and!.
  - unfold GrubDir. by do 6 step.
  - unfold GrubOpen. by do 5 step.
  - unfold GrubLabel. by do 6 step.
Qed.

(** X9: with an engine that returns what it leaves in [grub_errno] and a
    translator that answers success for "no error" only, a host-success
    completion of [GrubDir], [GrubOpen] or [GrubLabel] leaves the last-error
    indicator clear. *)
Theorem bridge_success_leaves_errno_clear w File F g dirpath Hook HookData label :
  grub_fs_list (st w) ≠ NULL →
  file_at (st w) File F g →
  engine_returns_errno →
  translator_faithful →
  (∃ Status w',
     GrubDir File dirpath Hook HookData w = Done Status w' ∧
     (Status = EFI_SUCCESS → grub_errno (st w') = 0)) ∧
  (∃ Status w',
     GrubOpen File w = Done Status w' ∧
     (Status = EFI_SUCCESS → grub_errno (st w') = 0)) ∧
  (∃ Status w',
     GrubLabel File label w = Done Status w' ∧
     (Status = EFI_SUCCESS → grub_errno (st w') = 0)).
Proof.
  intros Hp [HF Hg] (Hdir & Hopen & Hlabel) Hfaithful. split_and!.
  - unfold GrubDir. do 6 step. eexists _, _. split; [reflexivity|].
    cbn [st]. intros E. apply Hfaithful in E. by rewrite <- Hdir.
  - unfold GrubOpen. do 5 step. eexists _, _. split; [reflexivity|].
    cbn [st]. intros E. apply Hfaithful in E. by rewrite <- Hopen.
  - unfold GrubLabel. do 6 step. eexists _, _. split; [reflexivity|].
    cbn [st]. intros E. apply Hfaithful in E. by rewrite <- Hlabel.
Qed.

(** X10: none of the five bridged calls checks the registry: with
    [grub_fs_list] null, each of them dereferences the null engine on a
    live file handle. *)
Theorem bridge_faults_without_registry w File F g Data Len dirpath Hook HookData label :
  grub_fs_list (st w) = NULL →
  file_at (st w) File F g →
  GrubRead File Data Len w = Fault ∧
  GrubDir File dirpath Hook HookData w = Fault ∧
  GrubOpen File w = Fault ∧
  GrubClose File w = Fault ∧
  GrubLabel File label w = Fault.
Proof.
  intros Hp [HF Hg]. split_and!.
  - unfold GrubRead. do 3 step. by rewrite Hp.
  - unfold GrubDir. do 3 step. by rewrite Hp.
  - unfold GrubOpen. do 3 step. by rewrite Hp.
  - unfold GrubClose. do 3 step. by rewrite Hp.
  - unfold GrubLabel. do 3 step. by rewrite Hp.
Qed.

(** X11: [GrubClose] frees neither the wrapper nor the FileSession: when
    the engine's close releases its own resources only, the handle is live
    after the call, with the session as it was, and the getters still
    answer. *)
Theorem GrubClose_keeps_handle w File F g :
  grub_fs_list (st w) ≠ NULL →
  file_at (st w) File F g →
  close_leaves_memory →
  ∃ w',
    GrubClose File w = Done tt w' ∧
    file_at (st w') File F g ∧
    GrubGetFileSize File w' = Done (to_UINT64 (file_size g)) w' ∧
    GrubGetFileOffset File w' = Done (to_UINT64 (file_offset g)) w'.
Proof.
  intros Hp [HF Hg] Hclose.
  unfold GrubClose. do 5 step. rewrite run_ret.
  eexists. split; [reflexivity|].
  assert (file_at (fs_close engine (GrubFile F) (set_grub_errno 0 (st w))).2 File F g)
    as [HF' Hg'] by (split; by rewrite Hclose).
  split_and!.
  - done.
  - unfold GrubGetFileSize. by do 2 step.
  - unfold GrubGetFileOffset. by do 2 step.
Qed.

(** *** The read path at its edges *)

Lemma to_UINTN_UINT64_nonneg x : 0 ≤ to_UINTN (to_UINT64 x).
Proof.
  unfold to_UINTN, to_UINT64, to_unsigned.
  assert (0 ≤ x mod 2 ^ 64) by (apply Z.mod_pos_bound; lia).
  destruct (Z.eq_dec (2 ^ nbits) 0) as [E|E].
  - by rewrite E, Z.mod_0_r.
  - apply Z.mod_pos_bound. pose proof (Z.pow_nonneg 2 nbits). lia.
Qed.

Lemma to_UINTN_UINT64_small x :
  0 ≤ x → x < 2 ^ 64 → x < 2 ^ nbits → to_UINTN (to_UINT64 x) = x.
Proof.
  intros H0 H64 Hn. unfold to_UINTN, to_UINT64.
  rewrite (to_unsigned_small 64) by lia. apply to_unsigned_small. lia.
Qed.

(** [GrubRead] with the length it hands to the engine known. *)
Lemma GrubRead_request w File F g Data Len L :
  grub_fs_list (st w) ≠ NULL →
  file_at (st w) File F g →
  read_leaves_position →
  clamped_Len g Len = L →
  ∃ r w',
    GrubRead File Data Len w = Done r w' ∧
    trace w' = trace w ++ [EvEngine (call_read (GrubFile F) Data L) (grub_errno (st w))].
Proof.
  intros Hp Hfile Hpos <-.
  rewrite (GrubRead_run _ _ _ _ _ _ Hp Hfile). cbv zeta.
  destruct (Hpos (GrubFile F) Data (clamped_Len g Len) (st w) g (proj2 Hfile))
    as (g1 & Hg1 & _ & _).
  destruct (_ <? 0).
  - by eexists _, _.
  - erewrite run_bind by (by apply run_update_grub_file).
    by eexists _, _.
Qed.

(** X12: a read of zero bytes, and any read at the end of the file
    (offset = size), asks the engine for zero bytes; with an engine that
    returns at most what it is asked, [GrubRead] reports an actual length
    of 0 and the offset stays where it was. *)
Theorem GrubRead_nothing_to_read w File F g Data Len :
  grub_fs_list (st w) ≠ NULL →
  file_at (st w) File F g →
  read_leaves_position →
  read_returns_at_most_asked →
  0 ≤ file_offset g < 2 ^ 64 →
  Len = 0 ∨ (file_offset g = file_size g ∧ 0 ≤ Len) →
  ∃ Status w' g',
    GrubRead File Data Len w = Done (Status, 0) w' ∧
    trace w' =
      trace w ++ [EvEngine (call_read (GrubFile F) Data 0) (grub_errno (st w))] ∧
    heap (st w') !! GrubFile F = Some (Obj_grub_file g') ∧
    file_offset g' = file_offset g.
Proof.
  intros Hp Hfile Hpos Hmost Hoff Hcase.
  assert (clamped_Len g Len = 0) as Hclamp.
  { rewrite clamped_Len_min.
    pose proof (to_UINTN_UINT64_nonneg (file_size g - file_offset g)).
    destruct Hcase as [->|[E HLen]]; [lia|].
    rewrite <- E, Z.sub_diag.
    unfold to_UINTN, to_UINT64, to_unsigned. rewrite !Zmod_0_l. lia. }
  rewrite (GrubRead_run _ _ _ _ _ _ Hp Hfile). cbv zeta. rewrite Hclamp.
  pose proof (Hmost (GrubFile F) Data 0 (st w)) as Hlen.
  destruct (Hpos (GrubFile F) Data 0 (st w) g (proj2 Hfile))
    as (g1 & Hg1 & Hoff1 & _).
  destruct (Z.ltb_spec (fs_read engine (GrubFile F) Data 0 (st w)).1 0).
  - by eexists _, _, g1.
  - assert ((fs_read engine (GrubFile F) Data 0 (st w)).1 = 0) as -> by lia.
    erewrite run_bind by (by apply run_update_grub_file).
    rewrite run_ret. unfold to_UINTN, to_unsigned. rewrite Zmod_0_l.
    eexists _, _, _. split; [reflexivity|]. cbn [trace st].
    split; [done|]. cbn. rewrite lookup_insert_eq. split; [done|].
    cbn. rewrite Z.add_0_r, Hoff1. by apply to_unsigned_small.
Qed.

(** X13: a request that fits in what remains of the file (and in a machine
    word) reaches the engine unchanged. *)
Theorem GrubRead_request_unclamped w File F g Data Len :
  grub_fs_list (st w) ≠ NULL →
  file_at (st w) File F g →
  read_leaves_position →
  Len ≤ file_size g - file_offset g →
  0 ≤ file_size g - file_offset g →
  file_size g - file_offset g < 2 ^ 64 →
  file_size g - file_offset g < 2 ^ nbits →
  ∃ r w',
    GrubRead File Data Len w = Done r w' ∧
    trace w' =
      trace w ++ [EvEngine (call_read (GrubFile F) Data Len) (grub_errno (st w))].
Proof.
  intros Hp Hfile Hpos HLen H0 H64 Hn.
  apply (GrubRead_request w File F g Data Len Len Hp Hfile Hpos).
  rewrite clamped_Len_min, to_UINTN_UINT64_small by done. lia.
Qed.

(** X14: on a 64-bit build, once the offset lies past the size the
    difference size - offset wraps around to 2^64 - (offset - size), and
    every request up to that value reaches the engine unchanged: past the
    end of the file the clamp does not reduce the request. *)
Theorem GrubRead_past_end_unclamped w File F g Data Len :
  nbits = 64 →
  grub_fs_list (st w) ≠ NULL →
  file_at (st w) File F g →
  read_leaves_position →
  0 ≤ file_size g →
  file_size g < file_offset g < 2 ^ 64 →
  Len ≤ 2 ^ 64 - (file_offset g - file_size g) →
  ∃ r w',
    GrubRead File Data Len w = Done r w' ∧
    trace w' =
      trace w ++ [EvEngine (call_read (GrubFile F) Data Len) (grub_errno (st w))].
Proof.
  intros Hbits Hp Hfile Hpos Hsize Hoff HLen.
  apply (GrubRead_request w File F g Data Len Len Hp Hfile Hpos).
  rewrite clamped_Len_min. unfold to_UINTN, to_UINT64. rewrite Hbits.
  assert (to_unsigned 64 (file_size g - file_offset g)
          = 2 ^ 64 - (file_offset g - file_size g)) as ->.
  { unfold to_unsigned.
    replace (file_size g - file_offset g)
      with (2 ^ 64 - (file_offset g - file_size g) + (-1) * 2 ^ 64) by lia.
    rewrite Z_mod_plus_full. apply Z.mod_small. lia. }
  rewrite to_unsigned_small by lia. lia.
Qed.

(** X15: with an engine that serves in full every request its signed
    result can report and leaves the memory blocks alone, and with what
    remains of the file below 2^(nbits-1), a read of at least what remains
    returns exactly what remains and puts the offset at the size; the next
    read, of any length, returns 0 bytes and leaves the offset there. *)
Theorem GrubRead_until_end w File F g Data Len Len2 :
  grub_fs_list (st w) ≠ NULL →
  file_at (st w) File F g →
  read_serves_in_full →
  read_leaves_memory →
  0 ≤ file_offset g ≤ file_size g →
  file_size g < 2 ^ 64 →
  file_size g - file_offset g < 2 ^ (nbits - 1) →
  file_size g - file_offset g ≤ Len →
  0 ≤ Len2 →
  ∃ w1 w2,
    GrubRead File Data Len w = Done (EFI_SUCCESS, file_size g - file_offset g) w1 ∧
    GrubGetFileOffset File w1 = Done (file_size g) w1 ∧
    GrubRead File Data Len2 w1 = Done (EFI_SUCCESS, 0) w2 ∧
    GrubGetFileOffset File w2 = Done (file_size g) w2.
Proof.
  intros Hp [HF Hg] Hfull Hmem Hinv H64 Hhalf HLen HLen2.
  assert (File ≠ GrubFile F) as Hne by (intros E; rewrite <- E in Hg; congruence).
  set (d := file_size g - file_offset g).
  assert (0 < 2 ^ (nbits - 1)) as Hpos by (unfold d in *; lia).
  assert (2 ^ (nbits - 1) ≤ 2 ^ nbits) as Hmono.
  { destruct (Z.lt_ge_cases (nbits - 1) 0) as [Hneg|Hnn].
    - rewrite (Z.pow_neg_r 2 (nbits - 1)) in Hpos by done. lia.
    - apply Z.pow_le_mono_r; lia. }
  assert (d < 2 ^ nbits) as Hn by (unfold d in *; lia).
  assert (clamped_Len g Len = d) as Hclamp.
  { rewrite clamped_Len_min. fold d.
    rewrite to_UINTN_UINT64_small by (unfold d in *; lia). lia. }
  (* the first read *)
  rewrite (GrubRead_run _ _ _ _ _ _ Hp (conj HF Hg)). cbv zeta. rewrite Hclamp.
  destruct (Hmem (GrubFile F) Data d (st w)) as [Hheap Hreg].
  rewrite (Hfull (GrubFile F) Data d (st w)) by (unfold d in *; lia).
  destruct (Z.ltb_spec d 0); [unfold d in *; lia|].
  erewrite run_bind; last first.
  { apply run_update_grub_file. cbn [st]. rewrite Hheap. exact Hg. }
  rewrite run_ret.
  unfold to_UINTN. rewrite (to_unsigned_small nbits d) by (unfold d in *; lia).
  set (g1 := with_file_offset (to_UINT64 (file_offset g + d)) g).
  set (w1 := heap_update (GrubFile F) (Obj_grub_file g1) _).
  assert (file_offset g1 = file_size g) as Hoff1.
  { unfold g1. cbn. unfold to_UINT64. rewrite to_unsigned_small; unfold d; lia. }
  assert (file_size g1 = file_size g) as Hsize1 by done.
  assert (file_at (st w1) File F g1) as [HF1 Hg1].
  { split; unfold w1.
    - rewrite heap_update_lookup_ne by done. cbn [st]. by rewrite Hheap.
    - apply heap_update_lookup. }
  assert (grub_fs_list (st w1) ≠ NULL) as Hp1 by (unfold w1; cbn; by rewrite Hreg).
  assert (GrubGetFileOffset File w1 = Done (file_size g) w1) as Hget1.
  { unfold GrubGetFileOffset. do 2 step. rewrite Hoff1.
    unfold to_UINT64. rewrite to_unsigned_small by lia. done. }
  (* the second read *)
  assert (clamped_Len g1 Len2 = 0) as Hclamp2.
  { rewrite clamped_Len_min, Hoff1, Hsize1, Z.sub_diag.
    unfold to_UINTN, to_UINT64, to_unsigned. rewrite !Zmod_0_l. lia. }
  assert (∃ w2, GrubRead File Data Len2 w1 = Done (EFI_SUCCESS, 0) w2 ∧
                GrubGetFileOffset File w2 = Done (file_size g) w2) as (w2 & Hread2 & Hget2).
  { rewrite (GrubRead_run _ _ _ _ _ _ Hp1 (conj HF1 Hg1)). cbv zeta. rewrite Hclamp2.
    destruct (Hmem (GrubFile F) Data 0 (st w1)) as [Hheap2 _].
    rewrite (Hfull (GrubFile F) Data 0 (st w1)) by lia.
    change (0 <? 0) with false. cbv iota.
    erewrite run_bind; last first.
    { apply run_update_grub_file. cbn [st]. rewrite Hheap2. exact Hg1. }
    rewrite run_ret. unfold to_UINTN, to_unsigned. rewrite Zmod_0_l.
    eexists. split; [reflexivity|].
    unfold GrubGetFileOffset.
    erewrite run_bind; last first.
    { apply run_load_EFI_GRUB_FILE. rewrite heap_update_lookup_ne by done.
      cbn [st]. rewrite Hheap2. exact HF1. }
    erewrite run_bind; last (apply run_load_grub_file, heap_update_lookup).
    rewrite run_ret. f_equal.
    change (file_offset (with_file_offset
              (to_UINT64 (file_offset g1 + 0)) g1))
      with (to_UINT64 (file_offset g1 + 0)).
    rewrite Z.add_0_r, Hoff1.
    unfold to_UINT64. by rewrite !(to_unsigned_small 64 (file_size g)) by lia. }
  by exists w1, w2.
Qed.

(** X16: a seek composes with the clamp: after [GrubSetFileOffset] to a
    position inside the file, the next [GrubRead] asks the engine for the
    smaller of the requested length and the distance from that position to
    the size reduced to a machine word; when that distance fits in a machine
    word, as it always does on a 64-bit build, this is the smaller of the
    requested length and the distance itself. *)
Theorem seek_then_read w File F g v Data Len :
  grub_fs_list (st w) ≠ NULL →
  file_at (st w) File F g →
  read_leaves_position →
  0 ≤ v ≤ file_size g →
  file_size g < 2 ^ 64 →
  let L := Z.min Len (to_UINTN (file_size g - v)) in
  ∃ w1 r w2,
    GrubSetFileOffset File v w = Done tt w1 ∧
    GrubRead File Data Len w1 = Done r w2 ∧
    trace w2 =
      trace w ++ [EvEngine (call_read (GrubFile F) Data L) (grub_errno (st w))] ∧
    (file_size g - v < 2 ^ nbits → L = Z.min Len (file_size g - v)) ∧
    (nbits = 64 → L = Z.min Len (file_size g - v)).
Proof.
  intros Hp [HF Hg] Hpos Hv H64. cbv zeta.
  assert (File ≠ GrubFile F) as Hne by (intros E; rewrite <- E in Hg; congruence).
  set (g1 := with_file_offset (to_UINT64 v) g).
  set (w1 := heap_update (GrubFile F) (Obj_grub_file g1) w).
  assert (GrubSetFileOffset File v w = Done tt w1) as Hset.
  { unfold GrubSetFileOffset. step. by apply run_update_grub_file. }
  assert (file_at (st w1) File F g1) as Hfile1.
  { split; unfold w1; [by rewrite heap_update_lookup_ne|apply heap_update_lookup]. }
  assert (clamped_Len g1 Len = Z.min Len (to_UINTN (file_size g - v))) as Hclamp.
  { rewrite clamped_Len_min. unfold g1. cbn. unfold to_UINT64.
    rewrite (to_unsigned_small 64 v) by lia.
    by rewrite (to_unsigned_small 64 (file_size g - v)) by lia. }
  destruct (GrubRead_request w1 File F g1 Data Len _ Hp Hfile1 Hpos Hclamp)
    as (r & w2 & Hread & Htrace).
  exists w1, r, w2. split_and!; [done|done|done| |].
  - intros Hn. unfold to_UINTN. by rewrite to_unsigned_small by lia.
  - intros Hbits. unfold to_UINTN. rewrite Hbits. by rewrite to_unsigned_small by lia.
Qed.

(** X17: [grub_disk_read] reports failure through its return code alone:
    whether it refuses, fails or succeeds, it answers 0 or the read-error
    code and leaves [grub_errno], the other globals and every memory block
    as they were. *)
Theorem grub_disk_read_leaves_state w disk d sector offset size buf :
  heap (st w) !! disk = Some (Obj_grub_disk d) →
  disk_data d = NULL ∨ (∃ inst, heap (st w) !! disk_data d = Some (Obj_EFI_FS inst)) →
  ∃ rc w',
    grub_disk_read disk sector offset size buf w = Done rc w' ∧
    st w' = st w ∧
    (rc = 0 ∨ rc = GRUB_ERR_READ_ERROR).
Proof.
  intros Hdisk Hdata.
  destruct (Z.eq_dec (disk_data d) 0) as [Hnull|Hnonnull].
  - exists GRUB_ERR_READ_ERROR, w. split_and!; [|done|by right].
    unfold grub_disk_read. step. cbv zeta. by rewrite Hnull.
  - destruct Hdata as [?|[inst Hinst]]; [done|].
    destruct (DiskIo inst) as [dio|] eqn:Hdio; last first.
    { exists GRUB_ERR_READ_ERROR, w. split_and!; [|done|by right].
      unfold grub_disk_read. step. cbv zeta.
      destruct (Z.eqb_spec (disk_data d) 0) as [|_]; [done|].
      step. by rewrite Hdio. }
    destruct (BlockIo inst) as [bio|] eqn:Hbio; last first.
    { exists GRUB_ERR_READ_ERROR, w. split_and!; [|done|by right].
      unfold grub_disk_read. step. cbv zeta.
      destruct (Z.eqb_spec (disk_data d) 0) as [|_]; [done|].
      step. by rewrite Hdio, Hbio. }
    rewrite (grub_disk_read_run w disk d inst dio bio sector offset size buf
               Hdisk Hnonnull Hinst Hdio Hbio). cbv zeta.
    destruct (EFI_ERROR _).
    + eexists _, _. split_and!; [reflexivity|done|by right].
    + eexists _, _. split_and!; [reflexivity|done|by left].
Qed.

(** *** Compositions *)

(** X18: after a successful [GrubDeviceInit], and with an engine registered,
    the guard of the probe never refuses: [GrubFSProbe] enters the engine's
    root walk on the new device and answers by the last-error indicator the
    walk leaves. *)
Theorem GrubDeviceInit_then_probe w This inst :
  grub_fs_list (st w) ≠ NULL →
  pool_has_room (heap (st w)) = true →
  pool_has_room
    (<[next_block (heap (st w)) := Obj_grub_device zero_grub_device]> (heap (st w))) = true →
  heap (st w) !! This = Some (Obj_EFI_FS inst) →
  ∃ device w1 w2 log,
    GrubDeviceInit This w = Done EFI_SUCCESS w1 ∧
    GrubFSProbe This w1 =
      Done (grub_errno (root_walk device (st w1)).2 =? 0) w2 ∧
    trace w2 = trace w ++ EvEngine (call_dir device "/" NULL) 0 :: log ∧
    ∀ msg, EvPrintError msg ∉ log.
Proof.
  intros Hp Hroom Hroom1 Hinst.
  rewrite (GrubDeviceInit_run w This inst Hroom Hroom1 Hinst).
  pose proof (opened_device_fresh This w) as Hfresh.
  unfold opened_device in *. cbv zeta in *. cbn [fst snd].
  set (device := next_block (heap (st w))) in *.
  set (disk := next_block
                 (heap (st (heap_update device (Obj_grub_device zero_grub_device) w)))) in *.
  destruct Hfresh as (Hdev0 & Hdisk0 & Hne & Hdev & Hdisk).
  assert (This ≠ device) as HneT by exact (not_eq_sym (live_ne _ _ _ _ Hdev Hinst)).
  assert (This ≠ disk) as HneD by exact (not_eq_sym (live_ne _ _ _ _ Hdisk Hinst)).
  set (w1 := heap_update This _ _).
  assert (GrubFSProbe This w1 =
          if grub_errno (root_walk device (st w1)).2 =? 0
          then Done true
                 (mk_World (root_walk device (st w1)).2
                    (trace w1 ++ [EvEngine (call_dir device "/" NULL) 0]))
          else if LogLevel (root_walk device (st w1)).2 >=? FS_LOGLEVEL_INFO
               then Done false
                      (mk_World (set_grub_errno 0 (root_walk device (st w1)).2)
                         ((trace w1 ++ [EvEngine (call_dir device "/" NULL) 0]) ++
                          [EvGrubPrintError (grub_errno (root_walk device (st w1)).2)]))
               else Done false
                      (mk_World (root_walk device (st w1)).2
                         (trace w1 ++ [EvEngine (call_dir device "/" NULL) 0]))) as Hprobe.
  { apply (GrubFSProbe_run w1 This (with_GrubDevice device inst) (mk_grub_device disk)).
    - apply heap_update_lookup.
    - done.
    - unfold w1. cbn [GrubDevice with_GrubDevice]. heap_lookup.
    - done. }
  exists device, w1. rewrite Hprobe.
  destruct (_ =? 0).
  - eexists _, []. split_and!; [done|done|done|]. intros msg. apply not_elem_of_nil.
  - destruct (_ >=? _).
    + eexists _, [_]. split_and!; [done|done|by rewrite <- app_assoc|].
      intros msg Hin. apply list_elem_of_singleton in Hin. discriminate.
    + eexists _, []. split_and!; [done|done|done|]. intros msg. apply not_elem_of_nil.
Qed.

(** X19: FileSessions are independent: a seek or a read through one handle
    leaves the wrapper and the FileSession of every other handle as they
    were (for the read, with an engine that leaves the memory blocks
    alone). *)
Theorem sessions_independent w File1 F1 g1 File2 F2 g2 v Data Len :
  grub_fs_list (st w) ≠ NULL →
  file_at (st w) File1 F1 g1 →
  file_at (st w) File2 F2 g2 →
  GrubFile F1 ≠ GrubFile F2 →
  read_leaves_memory →
  (∃ w', GrubSetFileOffset File1 v w = Done tt w' ∧ file_at (st w') File2 F2 g2) ∧
  (∃ r w', GrubRead File1 Data Len w = Done r w' ∧ file_at (st w') File2 F2 g2).
Proof.
  intros Hp [HF1 Hg1] [HF2 Hg2] Hne Hmem.
  assert (GrubFile F1 ≠ File2) as Hne2
    by (intros E; rewrite E in Hg1; congruence).
  split.
  - unfold GrubSetFileOffset. step.
    rewrite (run_update_grub_file _ _ _ _ Hg1).
    eexists. split; [reflexivity|].
    split; by rewrite heap_update_lookup_ne.
  - rewrite (GrubRead_run _ _ _ _ _ _ Hp (conj HF1 Hg1)). cbv zeta.
    destruct (Hmem (GrubFile F1) Data (clamped_Len g1 Len) (st w)) as [Hheap _].
    destruct (_ <? 0).
    + eexists _, _. split; [reflexivity|]. cbn [st]. split; by rewrite Hheap.
    + erewrite run_bind; last first.
      { apply run_update_grub_file. cbn [st]. rewrite Hheap. exact Hg1. }
      rewrite run_ret. eexists _, _. split; [reflexivity|].
      split; rewrite heap_update_lookup_ne by done; cbn [st]; by rewrite Hheap.
Qed.

End GrubFile.

(** ** The properties on the sample engines and states *)

(** Scenario A: size 1000, offset 900, 500 bytes requested. *)
Lemma GrubRead_never_past_size_witness :
  ∃ Status Len' w' g',
    GrubRead 64 0 obliging_engine sample_translator 1 0 500
      (sample_world 0 0 900 1000) = Done (Status, Len') w' ∧
    Len' ≤ 1000 - 900 ∧
    heap (st w') !! 2 = Some (Obj_grub_file g') ∧
    file_size g' = 1000 ∧
    file_offset g' ≤ file_size g'.
Proof.
  apply (GrubRead_never_past_size 64 0 obliging_engine sample_translator
           (sample_world 0 0 900 1000) 1 sample_wrapper
           (mk_grub_file 3 7 900 1000 0) 0 500).
  - simpl. lia.
  - split; reflexivity.
  - simpl. lia.
  - intros f buf n s. simpl. lia.
  - intros f buf n s g H. exists g. simpl. auto.
Defined.

Lemma GrubRead_request_length_witness :
  ∃ r w',
    GrubRead 64 0 obliging_engine sample_translator 1 0 500
      (sample_world 0 0 900 1000) = Done r w' ∧
    trace w' = [EvEngine (call_read 2 0 100) 0] ∧
    (900 ≤ 1000 → 100 ≤ Z.max 0 (1000 - 900)).
Proof.
  apply (GrubRead_request_length 64 0 obliging_engine sample_translator
           (sample_world 0 0 900 1000) 1 sample_wrapper
           (mk_grub_file 3 7 900 1000 0) 0 500).
  - simpl. lia.
  - split; reflexivity.
  - intros f buf n s g H. exists g. simpl. auto.
Defined.

(** With the offset (20) past the size (10), a request of 5 bytes reaches
    the engine as 5 bytes, not as max(0, 10 - 20) = 0. *)
Lemma GrubRead_offset_past_size_not_clamped :
  ∃ r w',
    GrubRead 64 0 obliging_engine sample_translator 1 0 5
      (sample_world 0 0 20 10) = Done r w' ∧
    trace w' = [EvEngine (call_read 2 0 5) 0] ∧
    ¬ (5 ≤ Z.max 0 (10 - 20)).
Proof.
  eexists _, _. split; [vm_compute; reflexivity|]. split; [reflexivity|lia].
Qed.

(** C3: [GrubRead] does not clear the last-error indicator before it calls
    the engine.  With a stale error 14 pending, the engine is entered with
    [grub_errno] = 14, and after the read has succeeded and [GrubRead] has
    returned [EFI_SUCCESS] (0) the indicator still reads 14. *)
Theorem GrubRead_keeps_stale_errno :
  ∃ w',
    GrubRead 64 0 obliging_engine sample_translator 1 0 100
      (sample_world 14 0 900 1000) = Done (0, 100) w' ∧
    trace w' = [EvEngine (call_read 2 0 100) 14] ∧
    grub_errno (st w') = 14.
Proof.
  eexists. split; [vm_compute; reflexivity|]. split; reflexivity.
Qed.

(** Scenario B: the engine's read answers -1. *)
Lemma GrubRead_engine_failure_witness :
  ∃ w' g',
    GrubRead 64 0 (failing_engine 14) sample_translator 1 0 500
      (sample_world 0 0 900 1000) =
      Done (sample_translator (grub_errno (st w')), 0) w' ∧
    st w' = set_grub_errno 14 (st (sample_world 0 0 900 1000)) ∧
    heap (st w') !! 2 = Some (Obj_grub_file g') ∧
    file_offset g' = 900.
Proof.
  apply (GrubRead_engine_failure 64 0 (failing_engine 14) sample_translator
           (sample_world 0 0 900 1000) 1 sample_wrapper
           (mk_grub_file 3 7 900 1000 0) 0 500).
  - simpl. lia.
  - split; reflexivity.
  - intros f buf n s g H. exists g. simpl. auto.
  - simpl. lia.
Defined.

Lemma GrubRead_advances_offset_witness :
  ∃ w' g',
    GrubRead 64 0 obliging_engine sample_translator 1 0 500
      (sample_world 0 0 900 1000) = Done (0, 100) w' ∧
    heap (st w') !! 2 = Some (Obj_grub_file g') ∧
    file_offset g' = (900 + 100) mod 2 ^ 64 ∧
    (0 ≤ 900 → 900 + 100 < 2 ^ 64 →
       file_offset g' = 900 + 100 ∧ 900 ≤ file_offset g') ∧
    (100 = 0 → 0 ≤ 900 < 2 ^ 64 → file_offset g' = 900).
Proof.
  apply (GrubRead_advances_offset 64 0 obliging_engine sample_translator
           (sample_world 0 0 900 1000) 1 sample_wrapper
           (mk_grub_file 3 7 900 1000 0) 0 500).
  - simpl. lia.
  - split; reflexivity.
  - intros f buf n s g H. exists g. simpl. auto.
  - vm_compute. split; [discriminate|reflexivity].
Defined.

(** The offset stands at 2^64 - 1, past the size (10), where the unchecked
    setter can put it; a successful read of 5 bytes wraps it around to 4:
    the offset has decreased and is not the old offset plus 5. *)
Lemma GrubRead_offset_wraps_around :
  ∃ w' g',
    GrubRead 64 0 obliging_engine sample_translator 1 0 5
      (sample_world 0 0 (2 ^ 64 - 1) 10) = Done (0, 5) w' ∧
    trace w' = [EvEngine (call_read 2 0 5) 0] ∧
    heap (st w') !! 2 = Some (Obj_grub_file g') ∧
    file_offset g' = 4 ∧
    ¬ (2 ^ 64 - 1 ≤ file_offset g') ∧
    file_offset g' ≠ (2 ^ 64 - 1) + 5.
Proof.
  eexists _, _. split; [vm_compute; reflexivity|].
  split; [reflexivity|]. split; [vm_compute; reflexivity|].
  split; [reflexivity|]. cbn [file_offset]. split; lia.
Qed.

(** Scenario C: the walk callback never fires and the error stays clear. *)
Lemma GrubFSProbe_correct_witness :
  ∃ w' log,
    GrubFSProbe obliging_engine 3 5 (sample_world 0 0 900 1000) = Done true w' ∧
    trace w' = EvEngine (call_dir 3 "/" 0) 0 :: log ∧
    ∀ c e, EvEngine c e ∉ log.
Proof.
  refine (proj2 (proj2 (GrubFSProbe_correct obliging_engine 3
                          (sample_world 0 0 900 1000) 5 sample_instance _)
                   (mk_grub_device 4) _ _) _).
  - reflexivity.
  - simpl. lia.
  - reflexivity.
  - simpl. lia.
Defined.

(** A registered engine and an instance whose [GrubDevice] is null: the
    probe dereferences the null device instead of logging and returning
    false. *)
Lemma GrubFSProbe_null_device_faults :
  grub_fs_list (st world_without_device) ≠ NULL ∧
  heap (st world_without_device) !! 5 =
    Some (Obj_EFI_FS (mk_EFI_FS (Some 50) (Some (mk_EFI_BLOCK_IO 9)) 6 NULL)) ∧
  GrubFSProbe obliging_engine 3 5 world_without_device = Fault.
Proof.
  split; [simpl; lia|]. split; [reflexivity|]. vm_compute. reflexivity.
Qed.

(** Scenario D with the log level at [FS_LOGLEVEL_INFO] (3): the error of
    the walk is consumed. *)
Lemma GrubFSProbe_error_and_logging_witness :
  ∃ w',
    GrubFSProbe (failing_engine 14) 3 5 (sample_world 0 3 900 1000) = Done false w' ∧
    (3 ≤ 3 →
       grub_errno (st w') = 0 ∧
       trace w' = [EvEngine (call_dir 3 "/" 0) 0] ++ [EvGrubPrintError 14]) ∧
    (3 < 3 →
       grub_errno (st w') = 14 ∧ trace w' = [EvEngine (call_dir 3 "/" 0) 0]).
Proof.
  apply (GrubFSProbe_error_and_logging (failing_engine 14) 3
           (sample_world 0 3 900 1000) 5 sample_instance (mk_grub_device 4)).
  - reflexivity.
  - simpl. lia.
  - reflexivity.
  - simpl. lia.
  - simpl. lia.
Defined.

(** The same walk with the log level at 0, below [FS_LOGLEVEL_INFO] (3): the
    probe returns false and the last-error indicator still reads 14. *)
Lemma GrubFSProbe_error_not_consumed :
  ∃ w',
    GrubFSProbe (failing_engine 14) 3 5 (sample_world 0 0 900 1000) = Done false w' ∧
    grub_errno (st w') = 14 ∧
    trace w' = [EvEngine (call_dir 3 "/" 0) 0].
Proof.
  eexists. split; [vm_compute; reflexivity|]. split; reflexivity.
Qed.

(** A pool with room for one more block only. *)
Lemma allocation_rolls_back_witness :
  GrubCreateFile 0 X64_EFI_OUT_OF_RESOURCES (pool_of 7) 5 (sample_world 0 0 900 1000) =
    Done (X64_EFI_OUT_OF_RESOURCES, None) (sample_world 0 0 900 1000) ∧
  grub_device_open (pool_of 7) 5 (sample_world 0 0 900 1000) =
    Done NULL (sample_world 0 0 900 1000) ∧
  GrubDeviceInit 0 X64_EFI_OUT_OF_RESOURCES (pool_of 7) 5 (sample_world 0 0 900 1000) =
    Done (X64_EFI_OUT_OF_RESOURCES)
      (heap_update 5 (Obj_EFI_FS (with_GrubDevice NULL sample_instance))
         (sample_world 0 0 900 1000)).
Proof.
  assert (pool_of 7 (heap (st (sample_world 0 0 900 1000))) = true) as Hroom
    by (vm_compute; reflexivity).
  destruct (allocation_rolls_back 0 X64_EFI_OUT_OF_RESOURCES (pool_of 7) (sample_world 0 0 900 1000) 5 Hroom)
    as [Hfile Hdevice].
  split.
  - apply Hfile. vm_compute. reflexivity.
  - destruct Hdevice as [Hopen Hinit]; [vm_compute; reflexivity|].
    split; [exact Hopen|]. apply Hinit. reflexivity.
Defined.

(** Sector 3, in-sector offset 7, 512-byte sectors: one read at byte 1543. *)
Lemma grub_disk_read_shim_witness :
  (1543 = 3 * 512 + 7) ∧
  grub_disk_read X64_EFI_ERROR 14 512 transport_ok 4 3 7 4096 0 (sample_world 0 0 900 1000) =
    Done 0 (mk_World (st (sample_world 0 0 900 1000)) [EvReadDisk 50 9 1543 4096 0]).
Proof.
  destruct (grub_disk_read_shim X64_EFI_ERROR 14 512 transport_ok (sample_world 0 0 900 1000)
              4 (mk_grub_disk 5) 3 7 4096 0) as [_ Hread].
  - reflexivity.
  - specialize (Hread sample_instance).
    destruct Hread as [Hoffset Hrun].
    + simpl. lia.
    + reflexivity.
    + split; [reflexivity|]. exact Hrun.
Defined.

Lemma offset_accessors_round_trip_witness :
  let g' := mk_grub_file 3 7 42 1000 0 in
  let w' := heap_update 2 (Obj_grub_file g') (sample_world 0 0 900 1000) in
  GrubSetFileOffset 1 42 (sample_world 0 0 900 1000) = Done tt w' ∧
  GrubGetFileOffset 1 w' = Done 42 w' ∧
  file_at (st w') 1 sample_wrapper g' ∧
  GrubGetFileSize 1 (sample_world 0 0 900 1000) =
    Done (to_UINT64 1000) (sample_world 0 0 900 1000) ∧
  GrubGetFileOffset 1 (sample_world 0 0 900 1000) =
    Done (to_UINT64 900) (sample_world 0 0 900 1000).
Proof.
  apply (offset_accessors_round_trip (sample_world 0 0 900 1000) 1 sample_wrapper
           (mk_grub_file 3 7 900 1000 0) 42).
  - split; reflexivity.
  - lia.
Defined.

(** ** The further properties on the sample engines and states *)

Lemma grub_device_open_served_witness :
  ∃ device disk w',
    grub_device_open (pool_of 8) 5 (sample_world 0 0 900 1000) = Done device w' ∧
    device ≠ NULL ∧ disk ≠ NULL ∧ device ≠ disk ∧
    heap (st (sample_world 0 0 900 1000)) !! device = None ∧
    heap (st (sample_world 0 0 900 1000)) !! disk = None ∧
    heap (st w') !! device = Some (Obj_grub_device (mk_grub_device disk)) ∧
    heap (st w') !! disk = Some (Obj_grub_disk (mk_grub_disk 5)) ∧
    (∀ a, a ≠ device → a ≠ disk →
          heap (st w') !! a = heap (st (sample_world 0 0 900 1000)) !! a) ∧
    grub_errno (st w') = grub_errno (st (sample_world 0 0 900 1000)) ∧
    grub_fs_list (st w') = grub_fs_list (st (sample_world 0 0 900 1000)) ∧
    trace w' = trace (sample_world 0 0 900 1000).
Proof.
  apply (grub_device_open_served (pool_of 8) 5 (sample_world 0 0 900 1000)).
  - vm_compute. reflexivity.
  - vm_compute. reflexivity.
Defined.

Lemma grub_device_open_close_witness :
  ∃ device w',
    grub_device_open (pool_of 8) 5 (sample_world 0 0 900 1000) = Done device w' ∧
    grub_device_close device w' = Done 0 (sample_world 0 0 900 1000).
Proof.
  apply (grub_device_open_close (pool_of 8) (sample_world 0 0 900 1000) 5).
  - vm_compute. reflexivity.
  - vm_compute. reflexivity.
Defined.

Lemma GrubDeviceInit_routes_reads_witness :
  ∃ device disk w1,
    GrubDeviceInit 0 X64_EFI_OUT_OF_RESOURCES (pool_of 8) 5
      (sample_world 0 0 900 1000) = Done 0 w1 ∧
    heap (st w1) !! 5 = Some (Obj_EFI_FS (with_GrubDevice device sample_instance)) ∧
    heap (st w1) !! device = Some (Obj_grub_device (mk_grub_device disk)) ∧
    heap (st w1) !! disk = Some (Obj_grub_disk (mk_grub_disk 5)) ∧
    grub_disk_read X64_EFI_ERROR 14 512 transport_ok disk 3 7 4096 0 w1 =
      Done 0 (mk_World (st w1) [EvReadDisk 50 9 1543 4096 0]).
Proof.
  apply (GrubDeviceInit_routes_reads 0 X64_EFI_OUT_OF_RESOURCES X64_EFI_ERROR 14 512
           (pool_of 8) transport_ok (sample_world 0 0 900 1000) 5 sample_instance
           50 (mk_EFI_BLOCK_IO 9) 3 7 4096 0).
  - lia.
  - vm_compute. reflexivity.
  - vm_compute. reflexivity.
  - reflexivity.
  - reflexivity.
  - reflexivity.
Defined.

Lemma GrubDeviceInit_Exit_witness :
  ∃ device w1 w2,
    GrubDeviceInit 0 X64_EFI_OUT_OF_RESOURCES (pool_of 8) 5
      (sample_world 0 0 900 1000) = Done 0 w1 ∧
    GrubDeviceExit 0 5 w1 = Done 0 w2 ∧
    w2 = heap_update 5 (Obj_EFI_FS (with_GrubDevice device sample_instance))
           (sample_world 0 0 900 1000) ∧
    device ≠ NULL ∧
    heap (st w2) !! device = None.
Proof.
  apply (GrubDeviceInit_Exit 0 X64_EFI_OUT_OF_RESOURCES (pool_of 8)
           (sample_world 0 0 900 1000) 5 sample_instance).
  - vm_compute. reflexivity.
  - vm_compute. reflexivity.
  - reflexivity.
Defined.

Lemma GrubCreateFile_served_witness :
  ∃ NewFile f w',
    GrubCreateFile 0 X64_EFI_OUT_OF_RESOURCES (pool_of 8) 5
      (sample_world 0 0 900 1000) = Done (0, Some NewFile) w' ∧
    NewFile ≠ NULL ∧ f ≠ NULL ∧
    heap (st (sample_world 0 0 900 1000)) !! NewFile = None ∧
    heap (st (sample_world 0 0 900 1000)) !! f = None ∧
    file_at (st w') NewFile (mk_EFI_GRUB_FILE 11 "" f 5) (mk_grub_file 3 7 0 0 NULL) ∧
    (∀ a, a ≠ NewFile → a ≠ f →
          heap (st w') !! a = heap (st (sample_world 0 0 900 1000)) !! a) ∧
    GrubGetFileSize NewFile w' = Done 0 w' ∧
    GrubGetFileOffset NewFile w' = Done 0 w'.
Proof.
  apply (GrubCreateFile_served 0 X64_EFI_OUT_OF_RESOURCES (pool_of 8)
           (sample_world 0 0 900 1000) 5 sample_instance
           (mk_EFI_GRUB_FILE 11 "/" 0 5)).
  - vm_compute. reflexivity.
  - vm_compute. reflexivity.
  - reflexivity.
  - reflexivity.
Defined.

Lemma GrubCreateFile_Destroy_witness :
  ∃ NewFile w',
    GrubCreateFile 0 X64_EFI_OUT_OF_RESOURCES (pool_of 8) 5
      (sample_world 0 0 900 1000) = Done (0, Some NewFile) w' ∧
    GrubDestroyFile NewFile w' = Done tt (sample_world 0 0 900 1000).
Proof.
  apply (GrubCreateFile_Destroy 0 X64_EFI_OUT_OF_RESOURCES (pool_of 8)
           (sample_world 0 0 900 1000) 5 sample_instance
           (mk_EFI_GRUB_FILE 11 "/" 0 5)).
  - vm_compute. reflexivity.
  - vm_compute. reflexivity.
  - reflexivity.
  - reflexivity.
Defined.

Lemma first_allocation_refused_witness :
  GrubCreateFile 0 X64_EFI_OUT_OF_RESOURCES (pool_of 6) 5 (sample_world 0 0 900 1000) =
    Done (X64_EFI_OUT_OF_RESOURCES, None) (sample_world 0 0 900 1000) ∧
  grub_device_open (pool_of 6) 5 (sample_world 0 0 900 1000) =
    Done NULL (sample_world 0 0 900 1000).
Proof.
  apply (first_allocation_refused 0 X64_EFI_OUT_OF_RESOURCES (pool_of 6)
           (sample_world 0 0 900 1000) 5).
  vm_compute. reflexivity.
Defined.

Lemma bridge_translates_return_code_witness :
  GrubDir (failing_engine 14) sample_translator 1 "/boot" probe_dummy_iter 0
      (sample_world 3 0 900 1000) =
    Done (sample_translator 14)
      (mk_World (set_grub_errno 14 (st (sample_world 3 0 900 1000)))
         [EvEngine (call_dir 3 "/boot" 0) 0]) ∧
  GrubOpen (failing_engine 14) sample_translator 1 (sample_world 3 0 900 1000) =
    Done (sample_translator 14)
      (mk_World (set_grub_errno 14 (st (sample_world 3 0 900 1000)))
         [EvEngine (call_open 2 "/boot/kernel") 0]) ∧
  GrubLabel (failing_engine 14) sample_translator 1 0 (sample_world 3 0 900 1000) =
    Done (sample_translator 14)
      (mk_World (set_grub_errno 14 (st (sample_world 3 0 900 1000)))
         [EvEngine (call_label 3) 0]).
Proof.
  apply (bridge_translates_return_code (failing_engine 14) sample_translator
           (sample_world 3 0 900 1000) 1 sample_wrapper
           (mk_grub_file 3 7 900 1000 0) "/boot" probe_dummy_iter 0 0).
  - simpl. lia.
  - split; reflexivity.
Defined.

(** A stale error 3 is pending on entry; the candid engine succeeds. *)
Lemma bridge_success_leaves_errno_clear_witness :
  (∃ Status w',
     GrubDir candid_engine sample_translator 1 "/boot" probe_dummy_iter 0
       (sample_world 3 0 900 1000) = Done Status w' ∧
     (Status = 0 → grub_errno (st w') = 0)) ∧
  (∃ Status w',
     GrubOpen candid_engine sample_translator 1 (sample_world 3 0 900 1000) =
       Done Status w' ∧
     (Status = 0 → grub_errno (st w') = 0)) ∧
  (∃ Status w',
     GrubLabel candid_engine sample_translator 1 0 (sample_world 3 0 900 1000) =
       Done Status w' ∧
     (Status = 0 → grub_errno (st w') = 0)).
Proof.
  apply (bridge_success_leaves_errno_clear 0 candid_engine sample_translator
           (sample_world 3 0 900 1000) 1 sample_wrapper
           (mk_grub_file 3 7 900 1000 0) "/boot" probe_dummy_iter 0 0).
  - simpl. lia.
  - split; reflexivity.
  - split; [|split]; intros; reflexivity.
  - intros e. unfold sample_translator.
    destruct (Z.eqb_spec e 0) as [E|E]; [intros _; exact E|].
    vm_compute. discriminate.
Defined.

Lemma bridge_faults_without_registry_witness :
  GrubRead 64 0 obliging_engine sample_translator 1 0 500 world_without_registry = Fault ∧
  GrubDir obliging_engine sample_translator 1 "/boot" probe_dummy_iter 0
    world_without_registry = Fault ∧
  GrubOpen obliging_engine sample_translator 1 world_without_registry = Fault ∧
  GrubClose obliging_engine 1 world_without_registry = Fault ∧
  GrubLabel obliging_engine sample_translator 1 0 world_without_registry = Fault.
Proof.
  apply (bridge_faults_without_registry 64 0 obliging_engine sample_translator
           world_without_registry 1 sample_wrapper (mk_grub_file 3 7 900 1000 0)
           0 500 "/boot" probe_dummy_iter 0 0).
  - reflexivity.
  - split; reflexivity.
Defined.

Lemma GrubClose_keeps_handle_witness :
  ∃ w',
    GrubClose obliging_engine 1 (sample_world 0 0 900 1000) = Done tt w' ∧
    file_at (st w') 1 sample_wrapper (mk_grub_file 3 7 900 1000 0) ∧
    GrubGetFileSize 1 w' = Done (to_UINT64 1000) w' ∧
    GrubGetFileOffset 1 w' = Done (to_UINT64 900) w'.
Proof.
  apply (GrubClose_keeps_handle obliging_engine (sample_world 0 0 900 1000) 1
           sample_wrapper (mk_grub_file 3 7 900 1000 0)).
  - simpl. lia.
  - split; reflexivity.
  - intros f s. reflexivity.
Defined.

(** A read of 500 bytes at the end of a 1000-byte file. *)
Lemma GrubRead_nothing_to_read_witness :
  ∃ Status w' g',
    GrubRead 64 0 obliging_engine sample_translator 1 0 500
      (sample_world 0 0 1000 1000) = Done (Status, 0) w' ∧
    trace w' = [EvEngine (call_read 2 0 0) 0] ∧
    heap (st w') !! 2 = Some (Obj_grub_file g') ∧
    file_offset g' = 1000.
Proof.
  apply (GrubRead_nothing_to_read 64 0 obliging_engine sample_translator
           (sample_world 0 0 1000 1000) 1 sample_wrapper
           (mk_grub_file 3 7 1000 1000 0) 0 500).
  - simpl. lia.
  - split; reflexivity.
  - intros f buf n s g H. exists g. simpl. auto.
  - intros f buf n s. simpl. lia.
  - simpl. lia.
  - right. simpl. lia.
Defined.

Lemma GrubRead_request_unclamped_witness :
  ∃ r w',
    GrubRead 64 0 obliging_engine sample_translator 1 0 60
      (sample_world 0 0 900 1000) = Done r w' ∧
    trace w' = [EvEngine (call_read 2 0 60) 0].
Proof.
  apply (GrubRead_request_unclamped 64 0 obliging_engine sample_translator
           (sample_world 0 0 900 1000) 1 sample_wrapper
           (mk_grub_file 3 7 900 1000 0) 0 60).
  - simpl. lia.
  - split; reflexivity.
  - intros f buf n s g H. exists g. simpl. auto.
  - simpl. lia.
  - simpl. lia.
  - simpl. lia.
  - simpl. lia.
Defined.

(** Offset 20 past size 10: a request of 4096 bytes is handed on whole. *)
Lemma GrubRead_past_end_unclamped_witness :
  ∃ r w',
    GrubRead 64 0 obliging_engine sample_translator 1 0 4096
      (sample_world 0 0 20 10) = Done r w' ∧
    trace w' = [EvEngine (call_read 2 0 4096) 0].
Proof.
  apply (GrubRead_past_end_unclamped 64 0 obliging_engine sample_translator
           (sample_world 0 0 20 10) 1 sample_wrapper
           (mk_grub_file 3 7 20 10 0) 0 4096).
  - reflexivity.
  - simpl. lia.
  - split; reflexivity.
  - intros f buf n s g H. exists g. simpl. auto.
  - simpl. lia.
  - simpl. lia.
  - simpl. lia.
Defined.

Lemma GrubRead_until_end_witness :
  ∃ w1 w2,
    GrubRead 64 0 obliging_engine sample_translator 1 0 500
      (sample_world 0 0 900 1000) = Done (0, 1000 - 900) w1 ∧
    GrubGetFileOffset 1 w1 = Done 1000 w1 ∧
    GrubRead 64 0 obliging_engine sample_translator 1 0 500 w1 = Done (0, 0) w2 ∧
    GrubGetFileOffset 1 w2 = Done 1000 w2.
Proof.
  apply (GrubRead_until_end 64 0 obliging_engine sample_translator
           (sample_world 0 0 900 1000) 1 sample_wrapper
           (mk_grub_file 3 7 900 1000 0) 0 500 500).
  - simpl. lia.
  - split; reflexivity.
  - intros f buf n s H. reflexivity.
  - intros f buf n s. split; reflexivity.
  - simpl. lia.
  - simpl. lia.
  - simpl. lia.
  - simpl. lia.
  - lia.
Defined.

(** On a 32-bit build, a seek to 0 in a file of 2^32 + 100 bytes: the
    distance to the size is cut to 100, and a request of 500 bytes reaches
    the engine as 100. *)
Lemma seek_then_read_witness :
  ∃ w1 r w2,
    GrubSetFileOffset 1 0 (sample_world 0 0 900 (2 ^ 32 + 100)) = Done tt w1 ∧
    GrubRead 32 0 obliging_engine sample_translator 1 0 500 w1 = Done r w2 ∧
    trace w2 = [EvEngine (call_read 2 0 100) 0] ∧
    (2 ^ 32 + 100 - 0 < 2 ^ 32 → 100 = Z.min 500 (2 ^ 32 + 100 - 0)) ∧
    (32 = 64 → 100 = Z.min 500 (2 ^ 32 + 100 - 0)).
Proof.
  apply (seek_then_read 32 0 obliging_engine sample_translator
           (sample_world 0 0 900 (2 ^ 32 + 100)) 1 sample_wrapper
           (mk_grub_file 3 7 900 (2 ^ 32 + 100) 0) 0 0 500).
  - simpl. lia.
  - split; reflexivity.
  - intros f buf n s g H. exists g. simpl. auto.
  - simpl. lia.
  - simpl. lia.
Defined.

Lemma grub_disk_read_leaves_state_witness :
  ∃ rc w',
    grub_disk_read X64_EFI_ERROR 14 512 transport_ok 4 3 7 4096 0
      (sample_world 0 0 900 1000) = Done rc w' ∧
    st w' = st (sample_world 0 0 900 1000) ∧
    (rc = 0 ∨ rc = 14).
Proof.
  apply (grub_disk_read_leaves_state X64_EFI_ERROR 14 512 transport_ok
           (sample_world 0 0 900 1000) 4 (mk_grub_disk 5) 3 7 4096 0).
  - reflexivity.
  - right. exists sample_instance. reflexivity.
Defined.

Lemma GrubDeviceInit_then_probe_witness :
  ∃ device w1 w2 log,
    GrubDeviceInit 0 X64_EFI_OUT_OF_RESOURCES (pool_of 8) 5
      (sample_world 0 0 900 1000) = Done 0 w1 ∧
    GrubFSProbe obliging_engine 3 5 w1 =
      Done (grub_errno (root_walk obliging_engine device (st w1)).2 =? 0) w2 ∧
    trace w2 = trace (sample_world 0 0 900 1000) ++
               EvEngine (call_dir device "/" NULL) 0 :: log ∧
    ∀ msg, EvPrintError msg ∉ log.
Proof.
  apply (GrubDeviceInit_then_probe 0 X64_EFI_OUT_OF_RESOURCES obliging_engine 3
           (pool_of 8) (sample_world 0 0 900 1000) 5 sample_instance).
  - simpl. lia.
  - vm_compute. reflexivity.
  - vm_compute. reflexivity.
  - reflexivity.
Defined.

Lemma sessions_independent_witness :
  (∃ w', GrubSetFileOffset 1 950 two_files_world = Done tt w' ∧
         file_at (st w') 8 second_wrapper (mk_grub_file 3 7 40 500 0)) ∧
  (∃ r w', GrubRead 64 0 obliging_engine sample_translator 1 0 500 two_files_world =
             Done r w' ∧
           file_at (st w') 8 second_wrapper (mk_grub_file 3 7 40 500 0)).
Proof.
  apply (sessions_independent 64 0 obliging_engine sample_translator two_files_world
           1 sample_wrapper (mk_grub_file 3 7 900 1000 0)
           8 second_wrapper (mk_grub_file 3 7 40 500 0) 950 0 500).
  - simpl. lia.
  - split; reflexivity.
  - split; reflexivity.
  - simpl. lia.
  - intros f buf n s. split; reflexivity.
Defined.
